(** * Link shortener: a shallow embedding of the FastAPI service

    The embedding follows the Python sources module by module:
    [app/utils], [app/db/models.py], [app/repositories], [app/services]
    and [app/api/endpoints.py].  Python [str] values are sequences of code
    points, Python [int] is [Z], exceptions are values of [exn] carried by
    a result type, and the database session together with the two ambient
    sources of non-determinism (the pseudo random generator and the wall
    clock) is threaded explicitly through a state-and-exception monad. *)

From Stdlib Require Import ZArith NArith List String Ascii Bool Lia DecimalString.
Import ListNotations.

Set Implicit Arguments.

(* ===================================================================== *)
(** ** Python strings *)
(* ===================================================================== *)

Module Str.

  (** A Python [str]: the sequence of its Unicode code points. *)
Definition t := list N.

  (** The code points of an ASCII literal. *)
Definition lit (s : string) : t := map N_of_ascii (list_ascii_of_string s).

Fixpoint eqb (a b : t) : bool :=
    match a, b with
    | [], [] => true
    | x :: a', y :: b' => N.eqb x y && eqb a' b'
    | _, _ => false
    end.

  (** [s.startswith(p)] *)
Fixpoint startswith (p s : t) : bool :=
    match p, s with
    | [], _ => true
    | x :: p', y :: s' => N.eqb x y && startswith p' s'
    | _ :: _, [] => false
    end.

  (** [s.startswith((p1, p2, ...))] *)
Definition startswith_any (ps : list t) (s : t) : bool :=
    existsb (fun p => startswith p s) ps.

  (** [c in s] for a one-character [c]. *)
Definition contains (c : N) (s : t) : bool := existsb (N.eqb c) s.

Definition between (lo hi c : N) : bool := (N.leb lo c && N.leb c hi)%N.

  (** [str.isspace] on one code point (CPython's [_PyUnicode_IsWhitespace]). *)
Definition isspace (c : N) : bool :=
    between 9 13 c || between 28 32 c || N.eqb c 133 || N.eqb c 160
    || N.eqb c 5760 || between 8192 8202 c || N.eqb c 8232 || N.eqb c 8233
    || N.eqb c 8239 || N.eqb c 8287 || N.eqb c 12288.

Fixpoint lstrip_by (p : N -> bool) (s : t) : t :=
    match s with
    | [] => []
    | c :: s' => if p c then lstrip_by p s' else s
    end.

Definition rstrip_by (p : N -> bool) (s : t) : t :=
    rev (lstrip_by p (rev s)).

  (** [s.strip()] *)
Definition strip (s : t) : t := rstrip_by isspace (lstrip_by isspace s).

  (** [s.find(c)], counted from offset [i]; [-1] when [c] does not occur. *)
Fixpoint find_aux (c : N) (s : t) (i : Z) : Z :=
    match s with
    | [] => (-1)%Z
    | x :: s' => if N.eqb x c then i else find_aux c s' (i + 1)%Z
    end.

Definition find (c : N) (s : t) : Z := find_aux c s 0%Z.

  (** [s.find(c, start)] for [0 <= start]. *)
Definition find_from (c : N) (s : t) (start : nat) : Z :=
    find_aux c (skipn start s) (Z.of_nat start).

  (** [s.rfind(c)] *)
Definition rfind (c : N) (s : t) : Z :=
    match find c (rev s) with
    | Z.neg _ => (-1)%Z
    | k => (Z.of_nat (List.length s) - 1 - k)%Z
    end.

  (** [s[:i]] and [s[i:]] for [0 <= i]. *)
Definition upto (i : Z) (s : t) : t := firstn (Z.to_nat i) s.

Definition from (i : Z) (s : t) : t := skipn (Z.to_nat i) s.

  (** [s.replace(c, "")] for a one-character [c]. *)
Definition remove (c : N) (s : t) : t := filter (fun x => negb (N.eqb x c)) s.

Definition isascii (s : t) : bool := forallb (fun c => N.ltb c 128) s.

Definition is_ascii_letter (c : N) : bool := between 65 90 c || between 97 122 c.
Definition is_digit (c : N) : bool := between 48 57 c.

  (** [s.lower()] on the ASCII range, the only range it is applied to. *)
Definition lower (s : t) : t :=
    map (fun c => if between 65 90 c then (c + 32)%N else c) s.

  (** [s.split(c, 1)] when [c] occurs in [s]: the parts around the first [c]. *)
Definition split_once (c : N) (s : t) : t * t :=
    let i := find c s in (upto i s, from (i + 1) s).

  (** Decimal rendering of a natural number, and ["%0<w>d"]. *)
Definition of_nat (n : nat) : t := lit (NilEmpty.string_of_uint (Nat.to_uint n)).
Definition zfill (w : nat) (s : t) : t := repeat 48%N (w - List.length s) ++ s.
Definition fmt0 (w n : nat) : t := zfill w (of_nat n).

End Str.

(** [py "abc"] is the Python string literal ["abc"]. *)
Definition py : string -> Str.t := Str.lit.

(* ===================================================================== *)
(** ** Exceptions and results *)
(* ===================================================================== *)

(** The exceptions that the modelled code can raise. *)
Inductive exn : Type :=
| HTTPException (status_code : Z) (detail : string)
| NameError (name : string)
| ValueError (msg : string)
| KeyError (key : string)
| ValidationError (field : string)
| IntegrityError (constraint : string).

Inductive result (A : Type) : Type :=
| Ok (a : A)
| Raise (e : exn).
Arguments Ok {A} a.
Arguments Raise {A} e.

Definition isinstance_HTTPException (e : exn) : bool :=
  match e with HTTPException _ _ => true | _ => false end.

(** [str(e)] for the exceptions that reach a handler. *)
Definition str_exn (e : exn) : string :=
  match e with
  | HTTPException _ d => d
  | NameError n => "name '" ++ n ++ "' is not defined"
  | ValueError m => m
  | KeyError k => "'" ++ k ++ "'"
  | ValidationError f => f
  | IntegrityError c => c
  end.

(** The failure taxonomy of the specification, read off the HTTP status
    and detail the code attaches to each failure. *)
Definition InvalidURL (e : exn) : Prop :=
  exists detail, e = HTTPException 400 detail.
Definition NotFound (e : exn) : Prop :=
  e = HTTPException 404 "Short URL not found".
Definition CodeAllocationExhausted (e : exn) : Prop :=
  e = HTTPException 500 "Failed to generate unique short code".

(** Pure code that may raise. *)
Definition rbind {A B} (r : result A) (k : A -> result B) : result B :=
  match r with
  | Ok a => k a
  | Raise e => Raise e
  end.

(** [try: body  except Exception as e: handler e] *)
Definition try_except {A} (body : result A) (handler : exn -> result A) : result A :=
  match body with
  | Ok a => Ok a
  | Raise e => handler e
  end.

(** Evaluating a global name in a module whose namespace binds [globals]. *)
Definition load_global (globals : list string) (name : string) : result unit :=
  if existsb (String.eqb name) globals then Ok tt else Raise (NameError name).

(* ===================================================================== *)
(** ** Python values that flow through the dict-shaped stats result *)
(* ===================================================================== *)

Inductive pyval : Type :=
| PyNone
| PyInt (z : Z)
| PyStr (s : Str.t)
| PyCoroutine.

(** [bool(v)] *)
Definition truthy (v : pyval) : bool :=
  match v with
  | PyNone => false
  | PyInt z => negb (Z.eqb z 0)
  | PyStr s => negb (Nat.eqb (List.length s) 0)
  | PyCoroutine => true
  end.

(** [v == z] for an integer literal [z]. *)
Definition eq_int (v : pyval) (z : Z) : bool :=
  match v with
  | PyInt x => Z.eqb x z
  | _ => false
  end.

(** A dict with string keys, in insertion order. *)
Definition pydict := list (string * pyval).

Fixpoint dict_get (d : pydict) (k : string) : pyval :=
  match d with
  | [] => PyNone
  | (k', v) :: d' => if String.eqb k' k then v else dict_get d' k
  end.

Fixpoint dict_getitem (d : pydict) (k : string) : result pyval :=
  match d with
  | [] => Raise (KeyError k)
  | (k', v) :: d' => if String.eqb k' k then Ok v else dict_getitem d' k
  end.

(* ===================================================================== *)
(** ** datetime *)
(* ===================================================================== *)

(** A naive [datetime.datetime]. *)
Record datetime : Type := mkDatetime {
  year : nat; month : nat; day : nat;
  hour : nat; minute : nat; second : nat; microsecond : nat
}.

(** [str(d)], that is [d.isoformat(sep=' ')]. *)
Definition str_datetime (d : datetime) : Str.t :=
  Str.fmt0 4 (year d) ++ py "-" ++ Str.fmt0 2 (month d) ++ py "-" ++ Str.fmt0 2 (day d)
  ++ py " " ++ Str.fmt0 2 (hour d) ++ py ":" ++ Str.fmt0 2 (minute d)
  ++ py ":" ++ Str.fmt0 2 (second d)
  ++ (if Nat.eqb (microsecond d) 0 then [] else py "." ++ Str.fmt0 6 (microsecond d)).

(** [str(x)] for [x : datetime | None]. *)
Definition str_opt_datetime (x : option datetime) : Str.t :=
  match x with
  | Some d => str_datetime d
  | None => py "None"
  end.

(* ===================================================================== *)
(** ** The ambient runtime *)
(* ===================================================================== *)

(** What the program draws from its environment.  [random_draw n] is the
    [n]-th number produced by the random source (reduced modulo the size
    of the population by [random.choices]); [wall_clock n] is the value of
    the [n]-th reading of the clock.  The last two fields stand for the
    parts of [urllib.parse] that depend on the [ipaddress] and
    [unicodedata] modules: the message of the [ValueError] with
    which a bracketed network location is rejected, if it is, and the
    message with which a non-ASCII network location is rejected because
    its NFKC form introduces one of the reserved characters, if it is. *)
Record Runtime : Type := mkRuntime {
  random_draw : nat -> nat;
  wall_clock : nat -> datetime;
  bracketed_netloc_error : Str.t -> option string;
  nfkc_netloc_error : Str.t -> option string
}.

(* ===================================================================== *)
(** ** urllib.parse *)
(* ===================================================================== *)

Module Urllib.

  (** [ParseResult(scheme, netloc, path, params, query, fragment)] *)
Record ParseResult : Type := mkParseResult {
    scheme : Str.t; netloc : Str.t; path : Str.t;
    params : Str.t; query : Str.t; fragment : Str.t
  }.

Definition colon : N := 58.
Definition slash : N := 47.
Definition qmark : N := 63.
Definition hash : N := 35.
Definition semicolon : N := 59.
Definition lbracket : N := 91.
Definition rbracket : N := 93.
Definition dot : N := 46.

  (** [scheme_chars]: letters, digits and ["+-."]. *)
Definition scheme_char (c : N) : bool :=
    Str.is_ascii_letter c || Str.is_digit c
    || N.eqb c 43 || N.eqb c 45 || N.eqb c 46.

  (** [_WHATWG_C0_CONTROL_OR_SPACE] *)
Definition c0_control_or_space (c : N) : bool := N.leb c 32.

  (** [_UNSAFE_URL_BYTES_TO_REMOVE]: tab, carriage return, line feed. *)
Definition remove_unsafe (url : Str.t) : Str.t :=
    Str.remove 10 (Str.remove 13 (Str.remove 9 url)).

  (** [_splitnetloc(url, start)] *)
Definition splitnetloc (url : Str.t) (start : nat) : Str.t * Str.t :=
    let step (delim : Z) (c : N) :=
      let wdelim := Str.find_from c url start in
      if (0 <=? wdelim)%Z then Z.min delim wdelim else delim in
    let delim := fold_left step [slash; qmark; hash] (Z.of_nat (List.length url)) in
    (Str.upto (delim - Z.of_nat start) (skipn start url), Str.from delim url).

  (** [_splitparams(url)] *)
Definition splitparams (url : Str.t) : Str.t * Str.t :=
    let cut (i : Z) := (Str.upto i url, Str.from (i + 1) url) in
    if Str.contains slash url then
      let i := Str.find_from semicolon url (Z.to_nat (Str.rfind slash url)) in
      if (i <? 0)%Z then (url, []) else cut i
    else cut (Str.find semicolon url).

Definition uses_params : list Str.t :=
    map py [""; "ftp"; "hdl"; "prospero"; "http"; "imap"; "https"; "shttp";
            "rtsp"; "rtspu"; "sip"; "sips"; "mms"; "sftp"; "tel"]%string.

Section WithRuntime.
Context (rt : Runtime).

    (** [_check_bracketed_netloc], delegated to the runtime. *)
Definition check_bracketed_netloc (netloc : Str.t) : result unit :=
      match bracketed_netloc_error rt netloc with
      | Some msg => Raise (ValueError msg)
      | None => Ok tt
      end.

    (** [_checknetloc]: only non-ASCII network locations are examined. *)
Definition checknetloc (netloc : Str.t) : result unit :=
      if Nat.eqb (List.length netloc) 0 || Str.isascii netloc then Ok tt
      else match nfkc_netloc_error rt netloc with
           | Some msg => Raise (ValueError msg)
           | None => Ok tt
           end.

    (** [urlsplit(url)], returning (scheme, netloc, url, query, fragment). *)
Definition urlsplit (url : Str.t)
      : result (Str.t * Str.t * Str.t * Str.t * Str.t) :=
      let url := Str.lstrip_by c0_control_or_space url in
      let url := remove_unsafe url in
      let i := Str.find colon url in
      let '(scheme, url) :=
        if (0 <? i)%Z && Str.is_ascii_letter (hd 0%N url)
           && forallb scheme_char (Str.upto i url)
        then (Str.lower (Str.upto i url), Str.from (i + 1) url)
        else ([], url) in
      rbind
        (if Str.eqb (firstn 2 url) [slash; slash] then
           let '(netloc, rest) := splitnetloc url 2 in
           let lb := Str.contains lbracket netloc in
           let rb := Str.contains rbracket netloc in
           if (lb && negb rb) || (rb && negb lb)
           then Raise (ValueError "Invalid IPv6 URL")
           else rbind (if lb && rb then check_bracketed_netloc netloc else Ok tt)
                      (fun _ => Ok (netloc, rest))
         else Ok ([], url))
        (fun '(netloc, url) =>
           let '(url, fragment) :=
             if Str.contains hash url then Str.split_once hash url else (url, []) in
           let '(url, query) :=
             if Str.contains qmark url then Str.split_once qmark url else (url, []) in
           rbind (checknetloc netloc)
                 (fun _ => Ok (scheme, netloc, url, query, fragment))).

    (** [urlparse(url)] *)
Definition urlparse (url : Str.t) : result ParseResult :=
      rbind (urlsplit url) (fun '(scheme, netloc, url, query, fragment) =>
        let '(url, params) :=
          if existsb (Str.eqb scheme) uses_params && Str.contains semicolon url
          then splitparams url else (url, []) in
        Ok (mkParseResult scheme netloc url params query fragment)).

End WithRuntime.

(** [s.partition(c)[0]], [s.partition(c)[2]] and [s.rpartition(c)[2]]. *)
Definition before (c : N) (s : Str.t) : Str.t :=
  if Str.contains c s then Str.upto (Str.find c s) s else s.

Definition after (c : N) (s : Str.t) : Str.t :=
  if Str.contains c s then Str.from (Str.find c s + 1) s else [].

Definition after_last (c : N) (s : Str.t) : Str.t :=
  if Str.contains c s then Str.from (Str.rfind c s + 1) s else s.

Definition at_sign : N := 64.

(** [_hostinfo[0]] of a network location: what follows the user
    information, up to the port; [ParseResult.hostname] is this string
    lower-cased, and [None] when it is empty. *)
Definition host (netloc : Str.t) : Str.t :=
  let hostinfo := after_last at_sign netloc in
  if Str.contains lbracket hostinfo
  then before rbracket (after lbracket hostinfo)
  else before colon hostinfo.

(** [_ALWAYS_SAFE]: letters, digits and the four characters [_.-~]. *)
Definition always_safe (b : N) : bool :=
  Str.is_ascii_letter b || Str.is_digit b
  || N.eqb b 95 || N.eqb b 46 || N.eqb b 45 || N.eqb b 126.

(** The two upper-case hexadecimal digits of a byte, after a percent
    sign. *)
Definition hex_digit (d : N) : N := if N.ltb d 10 then (48 + d)%N else (55 + d)%N.

Definition percent_encode (b : N) : Str.t :=
  [37; hex_digit (b / 16); hex_digit (b mod 16)]%N.

(** The UTF-8 bytes of one code point, as [str.encode] with the strict
    error handler produces them; a surrogate raises
    [UnicodeEncodeError], which is a [ValueError]. *)
Definition encode_utf8_char (c : N) : result (list N) :=
  if N.ltb c 128 then Ok [c]
  else if N.ltb c 2048 then Ok [192 + c / 64; 128 + c mod 64]%N
  else if N.ltb c 65536 then
    if N.leb 55296 c && N.leb c 57343
    then Raise (ValueError "surrogates not allowed")
    else Ok [224 + c / 4096; 128 + (c / 64) mod 64; 128 + c mod 64]%N
  else if N.ltb c 1114112 then
    Ok [240 + c / 262144; 128 + (c / 4096) mod 64; 128 + (c / 64) mod 64;
        128 + c mod 64]%N
  else Raise (ValueError "not a code point").

Fixpoint encode_utf8 (s : Str.t) : result (list N) :=
  match s with
  | [] => Ok []
  | c :: s' =>
      rbind (encode_utf8_char c) (fun bs =>
      rbind (encode_utf8 s') (fun rest => Ok (bs ++ rest)))
  end.

(** The bytes that [quote] leaves as they are, given its [safe] argument. *)
Definition unquoted (safe : Str.t) (b : N) : bool :=
  always_safe b || Str.contains b safe.

(** [quote(string, safe=safe)] *)
Definition quote (safe : Str.t) (s : Str.t) : result Str.t :=
  rbind (encode_utf8 s) (fun bs =>
    Ok (flat_map (fun b => if unquoted safe b then [b] else percent_encode b) bs)).

End Urllib.

(* ===================================================================== *)
(** ** app/utils/url_validator.py *)
(* ===================================================================== *)

Module UrlValidator.

  (** The names bound in the module's namespace. *)
Definition globals : list string :=
    ["urlparse"; "HTTPException"; "validate_url"]%string.

  (** [raise HTTPException(status_code=..., detail=...)] *)
Definition raise_HTTPException {A} (status : Z) (detail : string) : result A :=
    rbind (load_global globals "HTTPException")
          (fun _ => Raise (HTTPException status detail)).

Section WithRuntime.
Context (rt : Runtime).

Definition validate_url (url : Str.t) : result Str.t :=
      if negb (truthy (PyStr url)) || negb (truthy (PyStr (Str.strip url))) then
        raise_HTTPException 400 "URL cannot be empty"
      else
        let url := Str.strip url in
        let url :=
          if negb (Str.startswith_any [py "http://"; py "https://"] url)
          then py "https://" ++ url else url in
        try_except
          (rbind (Urllib.urlparse rt url) (fun parsed =>
             if negb (existsb (Str.eqb (Urllib.scheme parsed)) [py "http"; py "https"])
             then raise_HTTPException 400 "URL must use http or https"
             else if negb (truthy (PyStr (Urllib.netloc parsed)))
             then raise_HTTPException 400 "Invalid URL format"
             else if negb (Str.contains Urllib.dot (Urllib.netloc parsed))
             then raise_HTTPException 400 "Invalid domain"
             else Ok url))
          (fun e =>
             if isinstance_HTTPException e then Raise e
             else raise_HTTPException 400 ("Invalid URL: " ++ str_exn e)).

End WithRuntime.

End UrlValidator.

(* ===================================================================== *)
(** ** app/db/models.py *)
(* ===================================================================== *)

(** Table [urls]. *)
Module ShortURL.
Record t : Type := mk {
    id : option Z;
    original_url : Str.t;
    short_code : Str.t;
    is_active : bool;
    created_at : datetime;
    updated_at : datetime
  }.
Definition with_id (i : Z) (r : t) : t :=
    mk (Some i) (original_url r) (short_code r) (is_active r)
       (created_at r) (updated_at r).
End ShortURL.

(** Table [url_stats]. *)
Module URLStats.
Record t : Type := mk {
    id : option Z;
    short_code : Str.t;
    visit_count : Z;
    last_visited_at : option datetime;
    created_at : datetime;
    updated_at : datetime
  }.
Definition with_id (i : Z) (r : t) : t :=
    mk (Some i) (short_code r) (visit_count r) (last_visited_at r)
       (created_at r) (updated_at r).
End URLStats.

(* ===================================================================== *)
(** ** The session: database tables, random source and clock *)
(* ===================================================================== *)

(** The mutable state behind a request: the rows of the two tables with
    their primary-key sequences, and how far the random source and the
    clock have been read. *)
Record World : Type := mkWorld {
  urls : list ShortURL.t;
  urls_id_seq : Z;
  url_stats : list URLStats.t;
  url_stats_id_seq : Z;
  random_pos : nat;
  clock_pos : nat
}.

Definition empty_world : World := mkWorld [] 1 [] 1 0 0.

Definition set_urls (rows : list ShortURL.t) (seq : Z) (w : World) : World :=
  mkWorld rows seq (url_stats w) (url_stats_id_seq w) (random_pos w) (clock_pos w).
Definition set_url_stats (rows : list URLStats.t) (seq : Z) (w : World) : World :=
  mkWorld (urls w) (urls_id_seq w) rows seq (random_pos w) (clock_pos w).
Definition set_random_pos (n : nat) (w : World) : World :=
  mkWorld (urls w) (urls_id_seq w) (url_stats w) (url_stats_id_seq w) n (clock_pos w).
Definition set_clock_pos (n : nat) (w : World) : World :=
  mkWorld (urls w) (urls_id_seq w) (url_stats w) (url_stats_id_seq w) (random_pos w) n.

(** Stateful code that may raise: the state reached is returned in both
    cases, since writes committed before an exception stay committed. *)
Definition M (A : Type) : Type := World -> result A * World.

Definition ret {A} (a : A) : M A := fun w => (Ok a, w).
Definition raise {A} (e : exn) : M A := fun w => (Raise e, w).
Definition bind {A B} (c : M A) (k : A -> M B) : M B :=
  fun w => match c w with
           | (Ok a, w') => k a w'
           | (Raise e, w') => (Raise e, w')
           end.
Definition lift {A} (r : result A) : M A := fun w => (r, w).

Declare Scope py_scope.
Delimit Scope py_scope with py.
Notation "x <- c ;; k" := (bind c (fun x => k))
  (at level 61, c at next level, right associativity) : py_scope.
Notation "c ;; k" := (bind c (fun _ => k))
  (at level 61, right associativity) : py_scope.
Local Open Scope py_scope.

Section Ambient.
Context (rt : Runtime).

  (** [datetime.now()] and [datetime.utcnow()]: one reading of the clock each. *)
Definition datetime_now : M datetime :=
    fun w => (Ok (wall_clock rt (clock_pos w)), set_clock_pos (S (clock_pos w)) w).
Definition datetime_utcnow : M datetime := datetime_now.

  (** One index below [n] from the random source: [floor(random() * n)]. *)
Definition random_below (n : nat) : M nat :=
    fun w => (Ok (random_draw rt (random_pos w) mod n),
              set_random_pos (S (random_pos w)) w).

  (** [ShortURL(original_url=..., short_code=...)]: the remaining fields
      take their defaults, the two timestamps from their default factory. *)
Definition new_ShortURL (original_url short_code : Str.t) : M ShortURL.t :=
    created <- datetime_utcnow ;;
    updated <- datetime_utcnow ;;
    ret (ShortURL.mk None original_url short_code true created updated).

  (** [URLStats(short_code=..., visit_count=..., last_visited_at=...)] *)
Definition new_URLStats (short_code : Str.t) (visit_count : Z)
             (last_visited_at : option datetime) : M URLStats.t :=
    created <- datetime_utcnow ;;
    updated <- datetime_utcnow ;;
    ret (URLStats.mk None short_code visit_count last_visited_at created updated).

End Ambient.

(* ===================================================================== *)
(** ** app/utils/short_code_generator.py *)
(* ===================================================================== *)

Module ShortCodeGenerator.

  (** [string.ascii_letters + string.digits] *)
Definition characters : Str.t :=
    py "abcdefghijklmnopqrstuvwxyzABCDEFGHIJKLMNOPQRSTUVWXYZ0123456789".

Section WithRuntime.
Context (rt : Runtime).

    (** [random.choices(population, k=k)] *)
Fixpoint random_choices (population : Str.t) (k : nat) : M Str.t :=
      match k with
      | O => ret []
      | S k' =>
          i <- random_below rt (List.length population) ;;
          rest <- random_choices population k' ;;
          ret (nth i population 0%N :: rest)
      end.

    (** [generate_short_code(length)]; the join of one-character strings
        is the string of the chosen characters. *)
Definition generate_short_code (length : nat) : M Str.t :=
      random_choices characters length.

End WithRuntime.

End ShortCodeGenerator.

(* ===================================================================== *)
(** ** app/repositories *)
(* ===================================================================== *)

Module URLRepository.

  (** [select(ShortURL).where(ShortURL.short_code == short_code)], [.first()] *)
Definition get_by_short_code (short_code : Str.t) : M (option ShortURL.t) :=
    fun w => (Ok (find (fun r => Str.eqb (ShortURL.short_code r) short_code) (urls w)), w).

  (** [session.add], [commit], [refresh]: the row is inserted under the
      next primary key unless the unique index on [short_code] rejects it. *)
Definition create (short_url : ShortURL.t) : M ShortURL.t :=
    fun w =>
      let i := urls_id_seq w in
      if existsb (fun r => Str.eqb (ShortURL.short_code r) (ShortURL.short_code short_url))
                 (urls w)
      then (Raise (IntegrityError "ix_urls_short_code"), set_urls (urls w) (i + 1) w)
      else let row := ShortURL.with_id i short_url in
           (Ok row, set_urls (urls w ++ [row]) (i + 1) w).

End URLRepository.

Module URLStatsRepository.

Definition get_by_short_code (short_code : Str.t) : M (option URLStats.t) :=
    fun w => (Ok (find (fun r => Str.eqb (URLStats.short_code r) short_code) (url_stats w)), w).

  (** [session.add(url_stats)], [commit] *)
Definition insert (row : URLStats.t) : M URLStats.t :=
    fun w =>
      let i := url_stats_id_seq w in
      if existsb (fun r => Str.eqb (URLStats.short_code r) (URLStats.short_code row))
                 (url_stats w)
      then (Raise (IntegrityError "ix_url_stats_short_code"),
            set_url_stats (url_stats w) (i + 1) w)
      else let row := URLStats.with_id i row in
           (Ok row, set_url_stats (url_stats w ++ [row]) (i + 1) w).

Definition create (url_stats : URLStats.t) : M URLStats.t := insert url_stats.

  (** The row written by
      [SET visit_count = visit_count + 1, last_visited_at = :now]
      with [updated_at] refreshed by its [onupdate] default. *)
Definition bump (now upd : datetime) (r : URLStats.t) : URLStats.t :=
    URLStats.mk (URLStats.id r) (URLStats.short_code r) (URLStats.visit_count r + 1)
                (Some now) (URLStats.created_at r) upd.

  (** [UPDATE url_stats ... WHERE short_code = :short_code]; the result
      is [rowcount]. *)
Definition exec_update (short_code : Str.t) (now upd : datetime) : M Z :=
    fun w =>
      let hit r := Str.eqb (URLStats.short_code r) short_code in
      (Ok (Z.of_nat (List.length (filter hit (url_stats w)))),
       set_url_stats (map (fun r => if hit r then bump now upd r else r) (url_stats w))
                     (url_stats_id_seq w) w).

Section WithRuntime.
Context (rt : Runtime).

Definition increment_visit_count (short_code : Str.t) : M unit :=
      now <- datetime_now rt ;;
      upd <- datetime_utcnow rt ;;
      rowcount <- exec_update short_code now upd ;;
      if (rowcount =? 0)%Z then
        now' <- datetime_now rt ;;
        new_stats <- new_URLStats rt short_code 1 (Some now') ;;
        insert new_stats ;;
        ret tt
      else ret tt.

End WithRuntime.

End URLStatsRepository.

(* ===================================================================== *)
(** ** app/services *)
(* ===================================================================== *)

Module URLService.

  (** The names bound in [url_service.py]: its imports and its class. *)
Definition globals : list string :=
    ["Session"; "URLRepository"; "ShortURL"; "generate_short_code";
     "validate_url"; "URLService"]%string.

  (** [raise HTTPException(status_code=..., detail=...)] *)
Definition raise_HTTPException {A} (status : Z) (detail : string) : M A :=
    lift (rbind (load_global globals "HTTPException")
                (fun _ => Raise (HTTPException status detail))).

Definition MAX_ATTEMPTS : nat := 5.

Section WithRuntime.
Context (rt : Runtime).

    (** The body of [for _ in range(attempts)], followed by the statement
        after the loop. *)
Fixpoint allocate (original_url : Str.t) (attempts : nat) : M ShortURL.t :=
      match attempts with
      | O => raise_HTTPException 500 "Failed to generate unique short code"
      | S attempts' =>
          short_code <- ShortCodeGenerator.generate_short_code rt 6 ;;
          existing <- URLRepository.get_by_short_code short_code ;;
          match existing with
          | None =>
              short_url <- new_ShortURL rt original_url short_code ;;
              URLRepository.create short_url
          | Some _ => allocate original_url attempts'
          end
      end.

Definition create_short_url (original_url : Str.t) : M ShortURL.t :=
      original_url <- lift (UrlValidator.validate_url rt original_url) ;;
      allocate original_url MAX_ATTEMPTS.

Definition get_original_url (short_code : Str.t) : M (option Str.t) :=
      short_url <- URLRepository.get_by_short_code short_code ;;
      match short_url with
      | Some r => if ShortURL.is_active r then ret (Some (ShortURL.original_url r))
                  else ret None
      | None => ret None
      end.

End WithRuntime.

End URLService.

Module URLStatsService.

Definition get_stats (short_code : Str.t) : M pydict :=
    stats <- URLStatsRepository.get_by_short_code short_code ;;
    match stats with
    | Some s =>
        ret [("short_code", PyStr short_code);
             ("visit_count", PyInt (URLStats.visit_count s));
             ("last_visited_at", PyStr (str_opt_datetime (URLStats.last_visited_at s)))]%string
    | None =>
        ret [("short_code", PyStr short_code);
             ("visit_count", PyInt 0);
             ("last_visited_at", PyNone)]%string
    end.

Definition increment_visit (rt : Runtime) (short_code : Str.t) : M unit :=
    URLStatsRepository.increment_visit_count rt short_code.

End URLStatsService.

(* ===================================================================== *)
(** ** app/api/schemas.py *)
(* ===================================================================== *)

Module Schemas.

Record ShortenRequest : Type := mkShortenRequest { req_original_url : Str.t }.

Record ShortenRequestResponse : Type := mkShortenRequestResponse {
    resp_short_code : Str.t;
    resp_original_url : Str.t
  }.

  (** [URLStats]: [short_code: str], [visit_count: int],
      [last_visited_at: str | None]. *)
Record URLStats : Type := mkURLStats {
    short_code : Str.t;
    visit_count : Z;
    last_visited_at : option Str.t
  }.

  (** Construction validates each field against its annotation. *)
Definition URLStats_init (sc vc lv : pyval) : result URLStats :=
    match sc with
    | PyStr s =>
        match vc with
        | PyInt n =>
            match lv with
            | PyStr l => Ok (mkURLStats s n (Some l))
            | PyNone => Ok (mkURLStats s n None)
            | _ => Raise (ValidationError "last_visited_at")
            end
        | _ => Raise (ValidationError "visit_count")
        end
    | _ => Raise (ValidationError "short_code")
    end.

End Schemas.

(* ===================================================================== *)
(** ** app/api/endpoints.py *)
(* ===================================================================== *)

Module Endpoints.

  (** The names bound in [endpoints.py]. *)
Definition globals : list string :=
    ["APIRouter"; "Request"; "Depends"; "HTTPException"; "RedirectResponse";
     "Session"; "get_session"; "URLStatsRepository"; "URLService";
     "URLStatsService"; "URLRepository"; "ShortenRequest";
     "ShortenRequestResponse"; "URLStats"; "router"; "get_url_service";
     "get_url_stats_service"; "create_short_url"; "redirect_to_url";
     "get_url_stats"]%string.

Definition raise_HTTPException {A} (status : Z) (detail : string) : M A :=
    lift (rbind (load_global globals "HTTPException")
                (fun _ => Raise (HTTPException status detail))).

  (** [RedirectResponse(url=..., status_code=...)] *)
Record RedirectResponse : Type := mkRedirectResponse {
    url : Str.t;
    status_code : Z
  }.

(** The characters that the [Location] header of a [RedirectResponse]
    keeps besides the always safe ones: Starlette sets the header to
    [quote(str(url), safe=...)] with this argument. *)
Definition location_safe : Str.t := py ":/%#?=@[]!$&'()*+,;".

Definition location (r : RedirectResponse) : result Str.t :=
  Urllib.quote location_safe (url r).

Section WithRuntime.
Context (rt : Runtime).

    (** [POST /shorten] *)
Definition create_short_url (request : Schemas.ShortenRequest)
      : M Schemas.ShortenRequestResponse :=
      short_url <- URLService.create_short_url rt (Schemas.req_original_url request) ;;
      ret (Schemas.mkShortenRequestResponse (ShortURL.short_code short_url)
                                            (ShortURL.original_url short_url)).

    (** [GET /{short_code}] *)
Definition redirect_to_url (short_code : Str.t) : M RedirectResponse :=
      original_url <- URLService.get_original_url short_code ;;
      match original_url with
      | None => raise_HTTPException 404 "Short URL not found"
      | Some original_url =>
          if negb (truthy (PyStr original_url))
          then raise_HTTPException 404 "Short URL not found"
          else
            let original_url :=
              if negb (Str.startswith_any [py "http://"; py "https://"] original_url)
              then py "https://" ++ original_url else original_url in
            URLStatsService.increment_visit rt short_code ;;
            ret (mkRedirectResponse original_url 307)
      end.

    (** [GET /stats/{short_code}].  The inner call to [get_stats] is not
        awaited: what is tested is the coroutine object it returns. *)
Definition get_url_stats (short_code : Str.t) : M Schemas.URLStats :=
      stats <- URLStatsService.get_stats short_code ;;
      count <- lift (dict_getitem stats "visit_count") ;;
      (if eq_int count 0 then
         if negb (truthy PyCoroutine)
         then raise_HTTPException 404 "Short URL not found"
         else ret tt
       else ret tt) ;;
      lift (Schemas.URLStats_init (dict_get stats "short_code")
                                  (dict_get stats "visit_count")
                                  (dict_get stats "last_visited_at")).

End WithRuntime.

End Endpoints.

(* ===================================================================== *)
(** ** The operations of the core as one transition system *)
(* ===================================================================== *)

(** The four operations of the core, as a caller issues them. *)
Inductive op : Type :=
| Shorten (original_url : Str.t)
| Resolve (short_code : Str.t)
| Increment (short_code : Str.t)
| GetStats (short_code : Str.t).

(** The state in which an operation leaves the session, whether it
    returns or raises. *)
Definition run_op (rt : Runtime) (o : op) (w : World) : World :=
  match o with
  | Shorten u => snd (URLService.create_short_url rt u w)
  | Resolve c => snd (Endpoints.redirect_to_url rt c w)
  | Increment c => snd (URLStatsRepository.increment_visit_count rt c w)
  | GetStats c => snd (URLStatsService.get_stats c w)
  end.

(** States reachable from the empty database. *)
Inductive reachable (rt : Runtime) : World -> Prop :=
| reachable_empty : reachable rt empty_world
| reachable_step : forall w o, reachable rt w -> reachable rt (run_op rt o w).

(** The reading of the specification's record of a stats row. *)
Definition stats_row_is (r : URLStats.t) (code : Str.t) (count : Z)
           (visited : option datetime) : Prop :=
  URLStats.short_code r = code /\ URLStats.visit_count r = count
  /\ URLStats.last_visited_at r = visited.

(** The invariant of the stats table: one row per short code, and no
    negative counter. *)
Definition stats_ok (rows : list URLStats.t) : Prop :=
  NoDup (map URLStats.short_code rows)
  /\ forall r, In r rows -> (0 <= URLStats.visit_count r)%Z.

(** No counter of [rows] is lower in [rows']. *)
Definition counts_grow (rows rows' : list URLStats.t) : Prop :=
  forall r, In r rows ->
    exists r', In r' rows'
      /\ URLStats.short_code r' = URLStats.short_code r
      /\ URLStats.id r' = URLStats.id r
      /\ (URLStats.visit_count r <= URLStats.visit_count r')%Z.

(** The code that [generate_short_code] returns when the random source
    has been read [pos] times. *)
Definition drawn_code (rt : Runtime) (pos : nat) : Str.t :=
  map (fun i => nth (random_draw rt (pos + i)
                     mod List.length ShortCodeGenerator.characters)
                    ShortCodeGenerator.characters 0%N)
      (seq 0 6).

(** The row that a first visit of [code] inserts in state [w]. *)
Definition first_visit_row (rt : Runtime) (code : Str.t) (w : World) : URLStats.t :=
  URLStats.mk (Some (url_stats_id_seq w)) code 1
              (Some (wall_clock rt (2 + clock_pos w)))
              (wall_clock rt (3 + clock_pos w))
              (wall_clock rt (4 + clock_pos w)).

(** A runtime and states used to exercise the statements below. *)
Definition sample_clock (n : nat) : datetime := mkDatetime 2024 1 1 0 0 n 0.
Definition sample_runtime : Runtime :=
  mkRuntime (fun n => n) sample_clock (fun _ => None) (fun _ => None).
Definition constant_runtime : Runtime :=
  mkRuntime (fun _ => 0) sample_clock (fun _ => None) (fun _ => None).

(** The state after shortening [example.com], and after one visit of the
    code it received. *)
Definition shortened_world : World :=
  run_op sample_runtime (Shorten (py "example.com")) empty_world.
Definition visited_world : World :=
  run_op sample_runtime (Resolve (py "abcdef")) shortened_world.
Definition visited_row : URLStats.t :=
  URLStats.mk (Some 1%Z) (py "abcdef") 1 (Some (sample_clock 4))
              (sample_clock 5) (sample_clock 6).

(** A state whose only mapping has been deactivated. *)
Definition inactive_world : World :=
  mkWorld [ShortURL.mk (Some 1%Z) (py "https://example.com") (py "abcdef") false
                       (sample_clock 0) (sample_clock 1)]
          2 [] 1 6 2.

(** A state with a stats row that was initialised and never visited. *)
Definition initialised_row : URLStats.t :=
  URLStats.mk (Some 1%Z) (py "abcdef") 0 None (sample_clock 2) (sample_clock 3).
Definition initialised_world : World :=
  mkWorld (urls shortened_world) 2 [initialised_row] 2 6 4.

(** The state after shortening [example.com] when every draw of the
    random source is [0], so that every generated code is [aaaaaa]. *)
Definition crowded_world : World :=
  run_op constant_runtime (Shorten (py "example.com")) empty_world.

(** ** Vocabulary for the properties of the remaining code *)

(** A string that starts with one of the two accepted prefixes. *)
Definition has_scheme (s : Str.t) : bool :=
  Str.startswith_any [py "http://"; py "https://"] s.

(** A well-formed short code: six characters of
    [string.ascii_letters + string.digits]. *)
Definition alphanumeric (c : N) : bool := Str.is_ascii_letter c || Str.is_digit c.
Definition well_formed_code (s : Str.t) : Prop :=
  List.length s = 6 /\ forallb alphanumeric s = true.

(** The counter that the stats table holds for a short code: that of the
    row selected for it, zero when there is none. *)
Definition visit_count_of (code : Str.t) (w : World) : Z :=
  match find (fun r => Str.eqb (URLStats.short_code r) code) (url_stats w) with
  | Some r => URLStats.visit_count r
  | None => 0%Z
  end.

(** The state after [n] requests [GET /{code}] in a row. *)
Fixpoint resolve_times (rt : Runtime) (code : Str.t) (n : nat) (w : World) : World :=
  match n with
  | O => w
  | S k => resolve_times rt code k (snd (Endpoints.redirect_to_url rt code w))
  end.

(** The requests of the HTTP interface, and the states that serving
    them can produce from the empty database. *)
Inductive request : Type :=
| PostShorten (body : Schemas.ShortenRequest)
| GetRedirect (short_code : Str.t)
| GetUrlStats (short_code : Str.t).

Definition serve (rt : Runtime) (q : request) (w : World) : World :=
  match q with
  | PostShorten body => snd (Endpoints.create_short_url rt body w)
  | GetRedirect c => snd (Endpoints.redirect_to_url rt c w)
  | GetUrlStats c => snd (Endpoints.get_url_stats c w)
  end.

Inductive served (rt : Runtime) : World -> Prop :=
| served_empty : served rt empty_world
| served_step : forall w q, served rt w -> served rt (serve rt q w).

(** What holds of every row of [urls] and of the table as a whole. *)
Definition url_row_ok (seq : Z) (r : ShortURL.t) : Prop :=
  ShortURL.is_active r = true
  /\ has_scheme (ShortURL.original_url r) = true
  /\ well_formed_code (ShortURL.short_code r)
  /\ exists i, ShortURL.id r = Some i /\ (1 <= i < seq)%Z.

Definition urls_ok (w : World) : Prop :=
  (1 <= urls_id_seq w)%Z
  /\ NoDup (map ShortURL.short_code (urls w))
  /\ NoDup (map ShortURL.id (urls w))
  /\ forall r, In r (urls w) -> url_row_ok (urls_id_seq w) r.

(** What holds of every row of [url_stats] that a visit has written. *)
Definition stats_row_ok (seq : Z) (r : URLStats.t) : Prop :=
  (1 <= URLStats.visit_count r)%Z
  /\ URLStats.last_visited_at r <> None
  /\ exists i, URLStats.id r = Some i /\ (1 <= i < seq)%Z.

Definition stats_rows_ok (w : World) : Prop :=
  (1 <= url_stats_id_seq w)%Z
  /\ NoDup (map URLStats.id (url_stats w))
  /\ forall r, In r (url_stats w) -> stats_row_ok (url_stats_id_seq w) r.

(** Every stats row belongs to a stored mapping. *)
Definition stats_refer_to_urls (w : World) : Prop :=
  forall s, In s (url_stats w) ->
    exists r, In r (urls w) /\ ShortURL.short_code r = URLStats.short_code s.

(** The row and the state that the allocation loop produces when its
    attempt number [k] is the one that succeeds. *)
Definition allocated_row (rt : Runtime) (u : Str.t) (k : nat) (w : World) : ShortURL.t :=
  ShortURL.mk (Some (urls_id_seq w)) u (drawn_code rt (6 * k + random_pos w)) true
              (wall_clock rt (clock_pos w)) (wall_clock rt (1 + clock_pos w)).

Definition allocated_world (rt : Runtime) (u : Str.t) (k : nat) (w : World) : World :=
  mkWorld (urls w ++ [allocated_row rt u k w]) (urls_id_seq w + 1) (url_stats w)
          (url_stats_id_seq w) (6 * S k + random_pos w) (2 + clock_pos w).

(** Whether the code of attempt number [i] is already stored. *)
Definition taken (rt : Runtime) (i : nat) (w : World) : bool :=
  existsb (fun r => Str.eqb (ShortURL.short_code r) (drawn_code rt (6 * i + random_pos w)))
          (urls w).

(** The state after [POST /shorten] of [example.com] and one
    [GET /abcdef]. *)
Definition served_sample : World :=
  serve sample_runtime (GetRedirect (py "abcdef"))
        (serve sample_runtime (PostShorten (Schemas.mkShortenRequest (py "example.com")))
               empty_world).

(** A mapping and a stats row that have not been stored yet. *)
Definition fresh_mapping : ShortURL.t :=
  ShortURL.mk None (py "https://example.org") (py "zzzzzz") true
              (sample_clock 7) (sample_clock 8).
Definition fresh_stats : URLStats.t :=
  URLStats.mk None (py "zzzzzz") 0 None (sample_clock 7) (sample_clock 8).

(** The state after shortening [example.com], with the random source
    back at its start: the first code generated next is the stored one. *)
Definition rewound_world : World := set_random_pos 0 shortened_world.

(** A new mapping and a new stats row whose short code is stored. *)
Definition duplicate_mapping : ShortURL.t :=
  ShortURL.mk None (py "https://example.org") (py "abcdef") true
              (sample_clock 7) (sample_clock 8).
Definition duplicate_stats : URLStats.t :=
  URLStats.mk None (py "abcdef") 0 None (sample_clock 7) (sample_clock 8).

(** A state whose only mapping is active and has the empty URL. *)
Definition empty_url_world : World :=
  mkWorld [ShortURL.mk (Some 1%Z) [] (py "abcdef") true (sample_clock 0) (sample_clock 1)]
          2 [] 1 6 2.

(** A string every character of which [quote] keeps in a [Location]. *)
Definition location_plain (s : Str.t) : bool :=
  forallb (fun c => N.ltb c 128 && Urllib.unquoted Endpoints.location_safe c) s.

(* ===================================================================== *)
(** * Properties *)
(* ===================================================================== *)

(** ** Strings *)

Lemma Str_eqb_eq (a b : Str.t) : Str.eqb a b = true <-> a = b.
Proof.
  revert b; induction a as [|x a IH]; intros [|y b]; simpl; split; intro H;
    try reflexivity; try discriminate.
  - apply andb_true_iff in H as [Hx Hab].
    apply N.eqb_eq in Hx. apply IH in Hab. now subst.
  - injection H as -> ->. rewrite N.eqb_refl. simpl. now apply IH.
Qed.

Lemma Str_eqb_refl (a : Str.t) : Str.eqb a a = true.
Proof. now apply Str_eqb_eq. Qed.

Lemma Str_eqb_neq (a b : Str.t) : Str.eqb a b = false <-> a <> b.
Proof.
  split; intro H.
  - intro E. apply Str_eqb_eq in E. congruence.
  - destruct (Str.eqb a b) eqn:E; [apply Str_eqb_eq in E; contradiction | reflexivity].
Qed.

Lemma startswith_app (p s : Str.t) : Str.startswith p (p ++ s) = true.
Proof. induction p as [|x p IH]; simpl; [reflexivity|]. now rewrite N.eqb_refl. Qed.

Lemma startswith_nonempty (p s : Str.t) :
  p <> [] -> Str.startswith p s = true -> s <> [].
Proof. destruct p, s; simpl; congruence. Qed.

(** ** The validator *)

Lemma validator_raise (A : Type) (status : Z) (detail : string) :
  @UrlValidator.raise_HTTPException A status detail = Raise (HTTPException status detail).
Proof. reflexivity. Qed.

(** What the validator returns when it returns: the trimmed input, with
    the scheme prepended when it carries none, and the parse that passed
    the three checks. *)
Lemma validate_url_ok (rt : Runtime) (input r : Str.t) :
  UrlValidator.validate_url rt input = Ok r ->
  Str.strip input <> []
  /\ r = (if Str.startswith_any [py "http://"; py "https://"] (Str.strip input)
          then Str.strip input else py "https://" ++ Str.strip input)
  /\ exists parsed,
       Urllib.urlparse rt r = Ok parsed
       /\ (Urllib.scheme parsed = py "http" \/ Urllib.scheme parsed = py "https")
       /\ Urllib.netloc parsed <> []
       /\ Str.contains Urllib.dot (Urllib.netloc parsed) = true.
Proof.
  unfold UrlValidator.validate_url.
  destruct (negb (truthy (PyStr input)) || negb (truthy (PyStr (Str.strip input)))) eqn:G.
  { rewrite validator_raise. discriminate. }
  apply orb_false_iff in G as [_ G]. apply negb_false_iff in G.
  set (t := Str.strip input) in *.
  destruct (Str.startswith_any [py "http://"; py "https://"] t) eqn:P; cbn [negb].
  all: match goal with |- try_except (rbind (Urllib.urlparse _ ?u) _) _ = _ -> _ =>
         set (url := u) end.
  all: destruct (Urllib.urlparse rt url) as [parsed|e] eqn:U; cbn [rbind try_except].
  all: try (destruct (isinstance_HTTPException e); [discriminate|];
            rewrite validator_raise; discriminate).
  all: destruct (existsb (Str.eqb (Urllib.scheme parsed)) [py "http"; py "https"]) eqn:S;
         cbn [negb]; [| rewrite validator_raise; cbn; discriminate].
  all: destruct (truthy (PyStr (Urllib.netloc parsed))) eqn:N;
         cbn [negb]; [| rewrite validator_raise; cbn; discriminate].
  all: destruct (Str.contains Urllib.dot (Urllib.netloc parsed)) eqn:D;
         cbn [negb]; [| rewrite validator_raise; cbn; discriminate].
  all: intro E; injection E as <-.
  all: split; [destruct t; [discriminate G | discriminate] |].
  all: split; [reflexivity |].
  all: exists parsed; split; [exact U |]; split.
  all: try (cbn [existsb] in S; apply orb_true_iff in S as [S|S];
            [left; now apply Str_eqb_eq
            | apply orb_true_iff in S as [S|S]; [right; now apply Str_eqb_eq | discriminate]]).
  all: split; [destruct (Urllib.netloc parsed); [discriminate N | discriminate] | exact D].
Qed.

(** A validated URL carries one of the two schemes. *)
Lemma validate_url_scheme (rt : Runtime) (input r : Str.t) :
  UrlValidator.validate_url rt input = Ok r ->
  Str.startswith_any [py "http://"; py "https://"] r = true.
Proof.
  intro H. apply validate_url_ok in H as (_ & -> & _).
  destruct (Str.startswith_any _ (Str.strip input)) eqn:P; [exact P|].
  unfold Str.startswith_any. cbn [existsb].
  apply orb_true_iff. right. apply orb_true_iff. left. apply startswith_app.
Qed.

(** The parser raises nothing but [ValueError]. *)
Lemma urlparse_raises (rt : Runtime) (u : Str.t) (e : exn) :
  Urllib.urlparse rt u = Raise e -> exists m, e = ValueError m.
Proof.
  unfold Urllib.urlparse, Urllib.urlsplit, Urllib.check_bracketed_netloc,
    Urllib.checknetloc.
  repeat match goal with
         | |- context [let '(_, _) := ?p in _] => destruct p
         | |- context [if ?b then _ else _] => destruct b
         | |- context [match ?o with Some _ => _ | None => _ end] => destruct o
         | |- _ => progress cbn [rbind]
         end;
    intro E; try discriminate; injection E as <-; eauto.
Qed.

(** Every failure of the validator is an [InvalidURL]. *)
Lemma validate_url_raises (rt : Runtime) (input : Str.t) (e : exn) :
  UrlValidator.validate_url rt input = Raise e -> InvalidURL e.
Proof.
  unfold UrlValidator.validate_url, InvalidURL.
  destruct (negb _ || negb _).
  { rewrite validator_raise. intro E; injection E as <-. eauto. }
  match goal with |- try_except (rbind (Urllib.urlparse _ ?u) _) _ = _ -> _ =>
    destruct (Urllib.urlparse rt u) as [parsed|e'] eqn:U end; cbn [rbind try_except].
  - repeat match goal with |- context [if negb ?b then _ else _] => destruct b; cbn [negb] end;
      rewrite ?validator_raise; cbn; intro E; try discriminate; injection E as <-; eauto.
  - apply urlparse_raises in U as [m ->]. cbn. intro E; injection E as <-; eauto.
Qed.

(** C5, amended: when [normalize] succeeds on an input whose trimmed
    form is non-empty and starts with neither [http://] nor [https://],
    its result is [https://] followed by the trimmed input, and that
    result parses with a non-empty network location containing a dot (the
    network location, not the host: see the counterexample below).  When
    the trimmed input already starts with one of the two prefixes, the
    result is the trimmed input itself. *)
Theorem normalize_adds_only_the_scheme (rt : Runtime) (input r : Str.t) :
  UrlValidator.validate_url rt input = Ok r ->
  (Str.strip input <> [] ->
   Str.startswith_any [py "http://"; py "https://"] (Str.strip input) = false ->
   r = py "https://" ++ Str.strip input
   /\ exists parsed,
        Urllib.urlparse rt r = Ok parsed
        /\ Urllib.netloc parsed <> []
        /\ Str.contains Urllib.dot (Urllib.netloc parsed) = true)
  /\ (Str.startswith_any [py "http://"; py "https://"] (Str.strip input) = true ->
      r = Str.strip input).
Proof.
  intro H. apply validate_url_ok in H as (_ & Hr & parsed & U & _ & Hn & Hd).
  split.
  - intros _ P. rewrite P in Hr. split; [exact Hr|]. now exists parsed.
  - intro P. now rewrite P in Hr.
Qed.

Lemma normalize_adds_only_the_scheme_witness :
  (Str.strip (py "  Example.com/Path ") <> [] ->
   Str.startswith_any [py "http://"; py "https://"]
                      (Str.strip (py "  Example.com/Path ")) = false ->
   py "https://Example.com/Path" = py "https://" ++ Str.strip (py "  Example.com/Path ")
   /\ exists parsed,
        Urllib.urlparse sample_runtime (py "https://Example.com/Path") = Ok parsed
        /\ Urllib.netloc parsed <> []
        /\ Str.contains Urllib.dot (Urllib.netloc parsed) = true)
  /\ (Str.startswith_any [py "http://"; py "https://"]
                         (Str.strip (py "  Example.com/Path ")) = true ->
      py "https://Example.com/Path" = Str.strip (py "  Example.com/Path ")).
Proof.
  apply (normalize_adds_only_the_scheme sample_runtime (py "  Example.com/Path ")).
  vm_compute. reflexivity.
Defined.

(** C5 as worded, with the host in place of the network location, does
    not hold: [a.b@] is accepted, its result parses with the network
    location [a.b@], and the host of that is empty.  (In the same way
    [user.name@localhost] is accepted with the dot-less host
    [localhost].) *)
Lemma normalize_host_counterexample :
  ~ (forall (rt : Runtime) (input r : Str.t),
       UrlValidator.validate_url rt input = Ok r ->
       Str.strip input <> [] ->
       Str.startswith_any [py "http://"; py "https://"] (Str.strip input) = false ->
       r = py "https://" ++ Str.strip input
       /\ exists parsed,
            Urllib.urlparse rt r = Ok parsed
            /\ Urllib.host (Urllib.netloc parsed) <> []
            /\ Str.contains Urllib.dot (Urllib.host (Urllib.netloc parsed)) = true).
Proof.
  intro H.
  destruct (H sample_runtime (py "a.b@") (py "https://a.b@"))
    as (_ & parsed & U & Hne & _).
  - vm_compute. reflexivity.
  - vm_compute. discriminate.
  - vm_compute. reflexivity.
  - vm_compute in U. injection U as <-. apply Hne. vm_compute. reflexivity.
Qed.

(** C7.  [normalize("ftp://example.com")] fails with [InvalidURL]: the
    scheme [https://] is prepended, the network location of the result is
    [ftp:], and the check for a dot rejects it. *)
Theorem normalize_ftp_fails (rt : Runtime) :
  UrlValidator.validate_url rt (py "ftp://example.com")
    = Raise (HTTPException 400 "Invalid domain")
  /\ InvalidURL (HTTPException 400 "Invalid domain").
Proof. split; [vm_compute; reflexivity | now exists "Invalid domain"%string]. Qed.

(** ** The session *)

Lemma set_random_pos_twice (n m : nat) (w : World) :
  set_random_pos n (set_random_pos m w) = set_random_pos n w.
Proof. reflexivity. Qed.

Lemma random_choices_run (rt : Runtime) (population : Str.t) (k : nat) (w : World) :
  ShortCodeGenerator.random_choices rt population k w
  = (Ok (map (fun i => nth (random_draw rt (random_pos w + i) mod List.length population)
                           population 0%N) (seq 0 k)),
     set_random_pos (k + random_pos w) w).
Proof.
  revert w; induction k as [|k IH]; intro w.
  - destruct w; reflexivity.
  - cbn [ShortCodeGenerator.random_choices]. unfold bind at 1, random_below.
    unfold bind at 1. rewrite IH. unfold ret. cbn [random_pos set_random_pos].
    rewrite set_random_pos_twice. f_equal.
    + f_equal. cbn [seq map]. rewrite Nat.add_0_r. f_equal.
      rewrite <- seq_shift, map_map. apply map_ext. intro i.
      now rewrite Nat.add_succ_comm.
    + f_equal. lia.
Qed.

Lemma generate_short_code_run (rt : Runtime) (w : World) :
  ShortCodeGenerator.generate_short_code rt 6 w
  = (Ok (drawn_code rt (random_pos w)), set_random_pos (6 + random_pos w) w).
Proof. unfold ShortCodeGenerator.generate_short_code. now rewrite random_choices_run. Qed.

(** ** The stats table *)

Section StatsRows.
Variable code : Str.t.
Let hit (r : URLStats.t) : bool := Str.eqb (URLStats.short_code r) code.

Lemma no_hit_iff (rows : list URLStats.t) :
    existsb hit rows = false <-> forall r, In r rows -> URLStats.short_code r <> code.
Proof.
    induction rows as [|x rows IH]; cbn [existsb].
    - split; [intros _ r []| reflexivity].
    - rewrite orb_false_iff, IH. unfold hit at 1. rewrite Str_eqb_neq. split.
      + intros [Hx Hr] r [<-|Hin]; auto.
      + intro H. split; [apply H; now left | intros r Hin; apply H; now right].
Qed.

Lemma rowcount_zero (rows : list URLStats.t) :
    (Z.of_nat (List.length (filter hit rows)) =? 0)%Z = negb (existsb hit rows).
Proof.
    induction rows as [|x rows IH]; [reflexivity|].
    cbn [filter existsb]. destruct (hit x); [reflexivity | exact IH].
Qed.

Lemma update_misses (f : URLStats.t -> URLStats.t) (rows : list URLStats.t) :
    existsb hit rows = false -> map (fun r => if hit r then f r else r) rows = rows.
Proof.
    induction rows as [|x rows IH]; [reflexivity|].
    cbn [existsb map]. intro H. apply orb_false_iff in H as [-> H]. now rewrite IH.
Qed.

Lemma find_hit (rows : list URLStats.t) :
    existsb hit rows = false -> find hit rows = None.
Proof.
    induction rows as [|x rows IH]; [reflexivity|].
    cbn [existsb find]. intro H. apply orb_false_iff in H as [-> H]. auto.
Qed.

  (** What [increment_visit_count] does, in one equation. *)
Lemma increment_run (rt : Runtime) (w : World) :
    URLStatsRepository.increment_visit_count rt code w
    = if existsb hit (url_stats w) then
        (Ok tt,
         mkWorld (urls w) (urls_id_seq w)
                 (map (fun r => if hit r
                                then URLStatsRepository.bump
                                       (wall_clock rt (clock_pos w))
                                       (wall_clock rt (1 + clock_pos w)) r
                                else r) (url_stats w))
                 (url_stats_id_seq w) (random_pos w) (2 + clock_pos w))
      else
        (Ok tt,
         mkWorld (urls w) (urls_id_seq w)
                 (url_stats w ++ [first_visit_row rt code w])
                 (url_stats_id_seq w + 1) (random_pos w) (5 + clock_pos w)).
Proof.
    destruct w as [us useq rows sseq rp cp].
    unfold URLStatsRepository.increment_visit_count, datetime_utcnow, datetime_now,
      URLStatsRepository.exec_update, new_URLStats, datetime_utcnow, datetime_now,
      URLStatsRepository.insert, bind, ret.
    cbn [url_stats urls urls_id_seq url_stats_id_seq random_pos clock_pos
         set_clock_pos set_url_stats URLStats.short_code URLStats.with_id
         URLStats.visit_count URLStats.last_visited_at URLStats.created_at
         URLStats.updated_at].
    fold hit. rewrite rowcount_zero.
    destruct (existsb hit rows) eqn:E; cbn [negb]; [reflexivity|].
    rewrite update_misses by exact E. cbn -[existsb Z.add Nat.add]. fold hit. rewrite E. reflexivity.
Qed.

End StatsRows.

(** C1.  When exactly one stats row [r] carries the short code,
    [increment] succeeds and replaces that row, in place, by one with the
    counter of [r] plus one and [last_visited_at] the time read when the
    update is issued; the rows before and after it are unchanged.  When no
    row carries the short code, [increment] succeeds and appends exactly
    one row with counter [1] and [last_visited_at] the time read when the
    row is built. *)
Theorem increment_updates_or_inserts (rt : Runtime) (w : World) (code : Str.t) :
  (forall pre r post,
      url_stats w = pre ++ r :: post ->
      URLStats.short_code r = code ->
      (forall x, In x (pre ++ post) -> URLStats.short_code x <> code) ->
      exists w' r',
        URLStatsRepository.increment_visit_count rt code w = (Ok tt, w')
        /\ url_stats w' = pre ++ r' :: post
        /\ stats_row_is r' code (URLStats.visit_count r + 1)
                        (Some (wall_clock rt (clock_pos w)))
        /\ URLStats.id r' = URLStats.id r
        /\ URLStats.created_at r' = URLStats.created_at r)
  /\ ((forall x, In x (url_stats w) -> URLStats.short_code x <> code) ->
      exists w' r',
        URLStatsRepository.increment_visit_count rt code w = (Ok tt, w')
        /\ url_stats w' = url_stats w ++ [r']
        /\ stats_row_is r' code 1 (Some (wall_clock rt (2 + clock_pos w)))).
Proof.
  split.
  - intros pre r post Hrows Hr Hothers.
    rewrite increment_run, Hrows.
    assert (Hpre : existsb (fun x => Str.eqb (URLStats.short_code x) code) pre = false).
    { apply no_hit_iff. intros x Hx. apply Hothers, in_or_app. now left. }
    assert (Hpost : existsb (fun x => Str.eqb (URLStats.short_code x) code) post = false).
    { apply no_hit_iff. intros x Hx. apply Hothers, in_or_app. now right. }
    assert (Hhit : Str.eqb (URLStats.short_code r) code = true) by now apply Str_eqb_eq.
    rewrite existsb_app. cbn [existsb]. rewrite Hhit, orb_true_r.
    eexists _, _. split; [reflexivity|]. cbn [url_stats].
    rewrite map_app. cbn [map]. rewrite Hhit.
    rewrite !update_misses by assumption.
    split; [reflexivity|]. unfold stats_row_is. cbn. auto.
  - intro Hnone. rewrite increment_run.
    apply no_hit_iff in Hnone. rewrite Hnone.
    eexists _, _. split; [reflexivity|]. cbn [url_stats].
    split; [reflexivity|]. unfold stats_row_is. cbn. auto.
Qed.

Lemma increment_updates_or_inserts_witness :
  (exists w' r',
      URLStatsRepository.increment_visit_count sample_runtime (py "abcdef") visited_world
        = (Ok tt, w')
      /\ url_stats w' = [] ++ r' :: []
      /\ stats_row_is r' (py "abcdef") (URLStats.visit_count visited_row + 1)
                      (Some (wall_clock sample_runtime (clock_pos visited_world)))
      /\ URLStats.id r' = URLStats.id visited_row
      /\ URLStats.created_at r' = URLStats.created_at visited_row)
  /\ (exists w' r',
        URLStatsRepository.increment_visit_count sample_runtime (py "abcdef") shortened_world
          = (Ok tt, w')
        /\ url_stats w' = url_stats shortened_world ++ [r']
        /\ stats_row_is r' (py "abcdef") 1
                        (Some (wall_clock sample_runtime (2 + clock_pos shortened_world)))).
Proof.
  split.
  - apply (proj1 (increment_updates_or_inserts sample_runtime visited_world (py "abcdef"))
                 [] visited_row []).
    + vm_compute. reflexivity.
    + reflexivity.
    + intros x [].
  - apply (proj2 (increment_updates_or_inserts sample_runtime shortened_world (py "abcdef"))).
    intros x [].
Defined.

(** ** The mappings table *)

Section UrlRows.
Variable code : Str.t.
Let hit (r : ShortURL.t) : bool := Str.eqb (ShortURL.short_code r) code.

Lemma find_existsb (rows : list ShortURL.t) :
    find hit rows = None <-> existsb hit rows = false.
Proof.
    induction rows as [|x rows IH]; cbn [find existsb]; [tauto|].
    destruct (hit x); cbn [orb]; [split; discriminate | exact IH].
Qed.

Lemma find_appended (rows : list ShortURL.t) (x : ShortURL.t) :
    find hit rows = None -> hit x = true -> find hit (rows ++ [x]) = Some x.
Proof.
    induction rows as [|y rows IH]; cbn [find app]; intros H Hx.
    - now rewrite Hx.
    - destruct (hit y); [discriminate | auto].
Qed.

Lemma find_all_inactive (rows : list ShortURL.t) :
    (forall r, In r rows -> ShortURL.short_code r = code -> ShortURL.is_active r = false) ->
    match find hit rows with
    | Some r => ShortURL.is_active r = false
    | None => True
    end.
Proof.
    intro H. destruct (find hit rows) as [r|] eqn:F; [|exact I].
    apply find_some in F as [Hin Hr]. apply H; [exact Hin|]. now apply Str_eqb_eq.
Qed.

End UrlRows.

Lemma service_raise (A : Type) (status : Z) (detail : string) (w : World) :
  @URLService.raise_HTTPException A status detail w
  = (Raise (NameError "HTTPException"), w).
Proof. reflexivity. Qed.

Lemma endpoint_raise (A : Type) (status : Z) (detail : string) (w : World) :
  @Endpoints.raise_HTTPException A status detail w
  = (Raise (HTTPException status detail), w).
Proof. reflexivity. Qed.

(** One turn of the allocation loop, in one equation. *)
Lemma allocate_run (rt : Runtime) (u : Str.t) (k : nat) (w : World) :
  URLService.allocate rt u (S k) w
  = let code := drawn_code rt (random_pos w) in
    if existsb (fun r => Str.eqb (ShortURL.short_code r) code) (urls w)
    then URLService.allocate rt u k (set_random_pos (6 + random_pos w) w)
    else
      let row := ShortURL.mk (Some (urls_id_seq w)) u code true
                             (wall_clock rt (clock_pos w))
                             (wall_clock rt (1 + clock_pos w)) in
      (Ok row,
       mkWorld (urls w ++ [row]) (urls_id_seq w + 1) (url_stats w)
               (url_stats_id_seq w) (6 + random_pos w) (2 + clock_pos w)).
Proof.
  cbn [URLService.allocate]. unfold bind at 1. rewrite generate_short_code_run.
  unfold bind at 1, URLRepository.get_by_short_code.
  cbn [urls set_random_pos]. cbv zeta.
  destruct (find _ (urls w)) as [r|] eqn:F.
  - destruct (existsb _ (urls w)) eqn:E; [reflexivity|].
    apply find_existsb in E. congruence.
  - apply find_existsb in F.
    destruct w as [us useq rows sseq rp cp].
    unfold new_ShortURL, datetime_utcnow, datetime_now, URLRepository.create, bind, ret.
    cbn -[existsb Z.add Nat.add drawn_code] in *. rewrite F. reflexivity.
Qed.

(** When every generated code is taken, the loop ends on the [raise]
    statement, whose class name the module does not bind. *)
Lemma allocate_exhausted (rt : Runtime) (u : Str.t) (k : nat) (w : World) :
  (forall i, i < k ->
     existsb (fun r => Str.eqb (ShortURL.short_code r) (drawn_code rt (6 * i + random_pos w)))
             (urls w) = true) ->
  URLService.allocate rt u k w
  = (Raise (NameError "HTTPException"), set_random_pos (6 * k + random_pos w) w).
Proof.
  revert w; induction k as [|k IH]; intros w H.
  - destruct w; reflexivity.
  - rewrite allocate_run. cbv zeta.
    pose proof (H 0 ltac:(lia)) as H0. cbn [Nat.mul Nat.add] in H0.
    rewrite H0. rewrite IH.
    + rewrite set_random_pos_twice. destruct w; cbn [random_pos set_random_pos].
      f_equal. f_equal. lia.
    + intros i Hi. cbn [random_pos set_random_pos urls].
      replace (6 * i + (6 + random_pos w)) with (6 * S i + random_pos w) by lia.
      apply H. lia.
Qed.

(** What a successful allocation leaves behind. *)
Lemma allocate_ok (rt : Runtime) (u : Str.t) (k : nat) (w w' : World) (rec : ShortURL.t) :
  URLService.allocate rt u k w = (Ok rec, w') ->
  urls w' = urls w ++ [rec]
  /\ ShortURL.original_url rec = u
  /\ ShortURL.is_active rec = true
  /\ find (fun r => Str.eqb (ShortURL.short_code r) (ShortURL.short_code rec)) (urls w) = None.
Proof.
  revert w; induction k as [|k IH]; intro w.
  - cbn [URLService.allocate]. rewrite service_raise. discriminate.
  - rewrite allocate_run. cbv zeta.
    destruct (existsb _ (urls w)) eqn:E.
    + intro H. apply IH in H. exact H.
    + intro H. injection H as <- <-. cbn [urls ShortURL.original_url
        ShortURL.is_active ShortURL.short_code].
      repeat split. now apply find_existsb.
Qed.

Lemma allocate_stats (rt : Runtime) (u : Str.t) (k : nat) (w : World) :
  url_stats (snd (URLService.allocate rt u k w)) = url_stats w.
Proof.
  revert w; induction k as [|k IH]; intro w.
  - reflexivity.
  - rewrite allocate_run. cbv zeta.
    destruct (existsb _ (urls w)); [now rewrite IH | reflexivity].
Qed.

(** For a valid URL, five collisions in a row end [shorten] on the
    [NameError]. *)
Lemma create_short_url_exhausted (rt : Runtime) (u n : Str.t) (w : World) :
  UrlValidator.validate_url rt u = Ok n ->
  (forall i, i < URLService.MAX_ATTEMPTS ->
     existsb (fun r => Str.eqb (ShortURL.short_code r) (drawn_code rt (6 * i + random_pos w)))
             (urls w) = true) ->
  URLService.create_short_url rt u w
  = (Raise (NameError "HTTPException"), set_random_pos (30 + random_pos w) w).
Proof.
  intros V H. unfold URLService.create_short_url, bind, lift. rewrite V.
  now rewrite allocate_exhausted.
Qed.

(** C2.  With a store in which each of the five generated codes exists,
    [shorten] of a valid URL does not fail with [CodeAllocationExhausted]:
    the [raise] statement names a class that [url_service.py] never
    imports, so what is raised is a [NameError]. *)
Theorem exhausted_retries_raise_NameError :
  UrlValidator.validate_url constant_runtime (py "example.org") = Ok (py "https://example.org")
  /\ (forall i, i < 5 ->
        existsb (fun r => Str.eqb (ShortURL.short_code r)
                                  (drawn_code constant_runtime (6 * i + random_pos crowded_world)))
                (urls crowded_world) = true)
  /\ fst (URLService.create_short_url constant_runtime (py "example.org") crowded_world)
     = Raise (NameError "HTTPException")
  /\ ~ CodeAllocationExhausted (NameError "HTTPException").
Proof.
  split; [vm_compute; reflexivity|].
  split; [intros i _; vm_compute; reflexivity|].
  split; [vm_compute; reflexivity | unfold CodeAllocationExhausted; discriminate].
Qed.

Lemma validated_truthy (rt : Runtime) (u n : Str.t) :
  UrlValidator.validate_url rt u = Ok n -> truthy (PyStr n) = true.
Proof.
  intro H. apply validate_url_scheme in H. destruct n; [discriminate H | reflexivity].
Qed.

(** C3.  When [shorten u] returns a record, [resolve] of its short code
    in the resulting state returns the normalized form of [u], both as
    the service computes it and as the redirect the endpoint issues. *)
Theorem shorten_then_resolve (rt : Runtime) (u : Str.t) (w w' : World) (rec : ShortURL.t) :
  URLService.create_short_url rt u w = (Ok rec, w') ->
  exists n,
    UrlValidator.validate_url rt u = Ok n
    /\ ShortURL.original_url rec = n
    /\ URLService.get_original_url (ShortURL.short_code rec) w' = (Ok (Some n), w')
    /\ fst (Endpoints.redirect_to_url rt (ShortURL.short_code rec) w')
       = Ok (Endpoints.mkRedirectResponse n 307).
Proof.
  unfold URLService.create_short_url, bind at 1, lift.
  destruct (UrlValidator.validate_url rt u) as [n|e] eqn:V; [|discriminate].
  intro H. apply allocate_ok in H as (Hurls & Horig & Hact & Hfind).
  exists n. split; [reflexivity|]. split; [exact Horig|].
  assert (G : URLService.get_original_url (ShortURL.short_code rec) w' = (Ok (Some n), w')).
  { unfold URLService.get_original_url, bind, URLRepository.get_by_short_code.
    rewrite Hurls, (@find_appended (ShortURL.short_code rec) (urls w) rec Hfind (Str_eqb_refl _)).
    rewrite Hact, Horig. reflexivity. }
  split; [exact G|].
  unfold Endpoints.redirect_to_url, bind at 1. rewrite G.
  rewrite (validated_truthy _ _ V), (validate_url_scheme _ _ V). cbn [negb].
  unfold bind, URLStatsService.increment_visit. rewrite increment_run.
  destruct (existsb _ (url_stats w')); reflexivity.
Qed.

Lemma shorten_then_resolve_witness :
  exists n,
    UrlValidator.validate_url sample_runtime (py "example.com") = Ok n
    /\ ShortURL.original_url
         (ShortURL.mk (Some 1%Z) (py "https://example.com") (py "abcdef") true
                      (sample_clock 0) (sample_clock 1)) = n
    /\ URLService.get_original_url (py "abcdef") shortened_world
       = (Ok (Some n), shortened_world)
    /\ fst (Endpoints.redirect_to_url sample_runtime (py "abcdef") shortened_world)
       = Ok (Endpoints.mkRedirectResponse n 307).
Proof.
  apply (shorten_then_resolve sample_runtime (py "example.com") empty_world
           (w' := shortened_world)
           (rec := ShortURL.mk (Some 1%Z) (py "https://example.com") (py "abcdef") true
                               (sample_clock 0) (sample_clock 1))).
  vm_compute. reflexivity.
Defined.

(** C4.  When every mapping stored under the short code is inactive, in
    particular when there is none, [resolve] fails with [NotFound] and
    leaves the session as it was: no stats row is created and no counter
    is incremented. *)
Theorem resolve_unknown_or_inactive (rt : Runtime) (w : World) (code : Str.t) :
  (forall r, In r (urls w) -> ShortURL.short_code r = code -> ShortURL.is_active r = false) ->
  URLService.get_original_url code w = (Ok None, w)
  /\ Endpoints.redirect_to_url rt code w
     = (Raise (HTTPException 404 "Short URL not found"), w)
  /\ NotFound (HTTPException 404 "Short URL not found")
  /\ url_stats (snd (Endpoints.redirect_to_url rt code w)) = url_stats w.
Proof.
  intro H. apply find_all_inactive in H.
  assert (G : URLService.get_original_url code w = (Ok None, w)).
  { unfold URLService.get_original_url, bind, URLRepository.get_by_short_code.
    destruct (find _ (urls w)) as [r|]; [now rewrite H | reflexivity]. }
  assert (R : Endpoints.redirect_to_url rt code w
              = (Raise (HTTPException 404 "Short URL not found"), w)).
  { unfold Endpoints.redirect_to_url, bind at 1. rewrite G. apply endpoint_raise. }
  repeat split; try assumption. now rewrite R.
Qed.

Lemma resolve_unknown_or_inactive_witness :
  URLService.get_original_url (py "abcdef") inactive_world = (Ok None, inactive_world)
  /\ Endpoints.redirect_to_url sample_runtime (py "abcdef") inactive_world
     = (Raise (HTTPException 404 "Short URL not found"), inactive_world)
  /\ NotFound (HTTPException 404 "Short URL not found")
  /\ url_stats (snd (Endpoints.redirect_to_url sample_runtime (py "abcdef") inactive_world))
     = url_stats inactive_world.
Proof.
  apply (@resolve_unknown_or_inactive sample_runtime inactive_world (py "abcdef")).
  intros r [<-|[]] _. reflexivity.
Defined.

(** ** Stats queries *)

(** Under the unique index, the row found for a short code is the row
    that carries it. *)
Lemma find_unique_row (code : Str.t) (rows : list URLStats.t) (r : URLStats.t) :
  NoDup (map URLStats.short_code rows) ->
  In r rows -> URLStats.short_code r = code ->
  find (fun x => Str.eqb (URLStats.short_code x) code) rows = Some r.
Proof.
  induction rows as [|x rows IH]; intros Hnd Hin Hr; [destruct Hin|].
  cbn [map] in Hnd. inversion Hnd as [|? ? Hnotin Hnd']; subst.
  cbn [find]. destruct Hin as [->|Hin].
  - now rewrite Str_eqb_refl.
  - destruct (Str.eqb (URLStats.short_code x) (URLStats.short_code r)) eqn:E.
    + apply Str_eqb_eq in E. exfalso. apply Hnotin. rewrite E. now apply in_map.
    + now apply IH.
Qed.

(** C6.  When no stats row carries the short code, [get_stats] returns,
    without failing, the short code with a zero counter and no last
    visit, and leaves the session as it was. *)
Theorem get_stats_without_row (w : World) (code : Str.t) :
  (forall r, In r (url_stats w) -> URLStats.short_code r <> code) ->
  URLStatsService.get_stats code w
  = (Ok [("short_code", PyStr code); ("visit_count", PyInt 0);
         ("last_visited_at", PyNone)]%string, w).
Proof.
  intro H. apply no_hit_iff in H.
  unfold URLStatsService.get_stats, bind, URLStatsRepository.get_by_short_code.
  now rewrite (find_hit _ _ H).
Qed.

Lemma get_stats_without_row_witness :
  URLStatsService.get_stats (py "abcdef") shortened_world
  = (Ok [("short_code", PyStr (py "abcdef")); ("visit_count", PyInt 0);
         ("last_visited_at", PyNone)]%string, shortened_world).
Proof.
  apply (@get_stats_without_row shortened_world (py "abcdef")).
  intros r [].
Defined.

(** C9.  When a stats row carries the short code, [get_stats] returns
    its counter and, for [last_visited_at], the string that [str] gives
    for the stored value, not the value: for a row never visited this is
    the string [None]. *)
Theorem get_stats_renders_timestamp (w : World) (code : Str.t) (r : URLStats.t) :
  NoDup (map URLStats.short_code (url_stats w)) ->
  In r (url_stats w) ->
  URLStats.short_code r = code ->
  URLStatsService.get_stats code w
  = (Ok [("short_code", PyStr code);
         ("visit_count", PyInt (URLStats.visit_count r));
         ("last_visited_at", PyStr (str_opt_datetime (URLStats.last_visited_at r)))]%string,
     w)
  /\ (URLStats.last_visited_at r = None ->
      dict_get (match fst (URLStatsService.get_stats code w) with
                | Ok d => d
                | Raise _ => []
                end) "last_visited_at" = PyStr (py "None")).
Proof.
  intros Hnd Hin Hr.
  assert (G : URLStatsService.get_stats code w
              = (Ok [("short_code", PyStr code);
                     ("visit_count", PyInt (URLStats.visit_count r));
                     ("last_visited_at",
                      PyStr (str_opt_datetime (URLStats.last_visited_at r)))]%string, w)).
  { unfold URLStatsService.get_stats, bind, URLStatsRepository.get_by_short_code.
    now rewrite (@find_unique_row _ _ _ Hnd Hin Hr). }
  split; [exact G|]. intro Hnone. rewrite G, Hnone. reflexivity.
Qed.

Lemma get_stats_renders_timestamp_witness :
  (URLStatsService.get_stats (py "abcdef") initialised_world
   = (Ok [("short_code", PyStr (py "abcdef"));
          ("visit_count", PyInt (URLStats.visit_count initialised_row));
          ("last_visited_at",
           PyStr (str_opt_datetime (URLStats.last_visited_at initialised_row)))]%string,
      initialised_world)
   /\ (URLStats.last_visited_at initialised_row = None ->
       dict_get (match fst (URLStatsService.get_stats (py "abcdef") initialised_world) with
                 | Ok d => d
                 | Raise _ => []
                 end) "last_visited_at" = PyStr (py "None")))
  /\ URLStats.last_visited_at initialised_row = None.
Proof.
  split; [|reflexivity].
  apply (@get_stats_renders_timestamp initialised_world (py "abcdef") initialised_row).
  - cbn. constructor; [intros [] | constructor].
  - now left.
  - reflexivity.
Defined.

(** C10.  For every short code and every state, [GET /stats/{short_code}]
    returns a stats result for that code and leaves the session as it
    was; it raises nothing, so never [NotFound]: the test guarding the
    404 branch is applied to a coroutine object, which is true. *)
Theorem stats_endpoint_never_not_found (w : World) (code : Str.t) :
  exists s,
    Endpoints.get_url_stats code w = (Ok s, w)
    /\ Schemas.short_code s = code
    /\ forall e, fst (Endpoints.get_url_stats code w) = Raise e -> ~ NotFound e.
Proof.
  assert (G : exists s, Endpoints.get_url_stats code w = (Ok s, w)
                        /\ Schemas.short_code s = code).
  { unfold Endpoints.get_url_stats, URLStatsService.get_stats,
      URLStatsRepository.get_by_short_code, bind, ret, lift.
    destruct (find _ (url_stats w)) as [r|];
      cbn [dict_getitem dict_get String.eqb Ascii.eqb Bool.eqb eq_int truthy negb
           Schemas.URLStats_init].
    - destruct (Z.eqb (URLStats.visit_count r) 0); eexists; split; reflexivity.
    - eexists; split; reflexivity. }
  destruct G as (s & G & Hs). exists s. rewrite G.
  split; [reflexivity|]. split; [exact Hs|]. intros e H. discriminate H.
Qed.

(** ** The invariant of the stats table *)

Lemma NoDup_snoc (A : Type) (l : list A) (a : A) :
  NoDup l -> ~ In a l -> NoDup (l ++ [a]).
Proof.
  induction l as [|x l IH]; cbn [app]; intros Hnd Hnotin.
  - constructor; [intros [] | constructor].
  - inversion Hnd as [|? ? Hx Hl]; subst. constructor.
    + intro Hin. apply in_app_or in Hin as [Hin|[->|[]]]; [now apply Hx|].
      apply Hnotin. now left.
    + apply IH; [exact Hl|]. intro Hin. apply Hnotin. now right.
Qed.

Lemma counts_grow_refl (rows : list URLStats.t) : counts_grow rows rows.
Proof. intros r Hin. exists r. repeat split; [exact Hin | lia]. Qed.

Section IncrementInvariant.
Variables (rt : Runtime) (code : Str.t) (w : World).
Let w' := snd (URLStatsRepository.increment_visit_count rt code w).

Lemma increment_codes :
    map URLStats.short_code (url_stats w')
    = if existsb (fun r => Str.eqb (URLStats.short_code r) code) (url_stats w)
      then map URLStats.short_code (url_stats w)
      else map URLStats.short_code (url_stats w) ++ [code].
Proof.
    unfold w'. rewrite increment_run.
    destruct (existsb _ (url_stats w)); cbn [snd url_stats].
    - rewrite map_map. apply map_ext. intro r.
      now destruct (Str.eqb (URLStats.short_code r) code).
    - now rewrite map_app.
Qed.

Lemma increment_keeps_stats_ok :
    stats_ok (url_stats w) -> stats_ok (url_stats w').
Proof.
    intros [Hnd Hpos]. split.
    - rewrite increment_codes.
      destruct (existsb _ (url_stats w)) eqn:E; [exact Hnd|].
      apply NoDup_snoc; [exact Hnd|]. intro Hin.
      apply in_map_iff in Hin as (r & Hr & Hin).
      apply (proj1 (no_hit_iff code (url_stats w)) E r Hin Hr).
    - unfold w'. rewrite increment_run.
      destruct (existsb _ (url_stats w)); cbn [snd url_stats]; intros r Hin.
      + apply in_map_iff in Hin as (r0 & <- & Hin). specialize (Hpos r0 Hin).
        destruct (Str.eqb (URLStats.short_code r0) code); cbn; lia.
      + apply in_app_or in Hin as [Hin|[<-|[]]]; [now apply Hpos | cbn; lia].
Qed.

Lemma increment_counts_grow : counts_grow (url_stats w) (url_stats w').
Proof.
    unfold w'. rewrite increment_run.
    destruct (existsb _ (url_stats w)); cbn [snd url_stats]; intros r Hin.
    - eexists. split; [apply in_map; exact Hin|].
      destruct (Str.eqb (URLStats.short_code r) code); cbn; repeat split; lia.
    - exists r. repeat split; [apply in_or_app; now left | lia].
Qed.

End IncrementInvariant.

(** An operation either leaves the stats table alone or acts on it as
    one [increment]. *)
Lemma run_op_stats (rt : Runtime) (o : op) (w : World) :
  url_stats (run_op rt o w) = url_stats w
  \/ exists code,
       url_stats (run_op rt o w)
       = url_stats (snd (URLStatsRepository.increment_visit_count rt code w)).
Proof.
  destruct o as [u|c|c|c]; cbn [run_op].
  - left. unfold URLService.create_short_url, bind, lift.
    destruct (UrlValidator.validate_url rt u); [apply allocate_stats | reflexivity].
  - unfold Endpoints.redirect_to_url, bind at 1.
    unfold URLService.get_original_url, bind, URLRepository.get_by_short_code, ret.
    destruct (find _ (urls w)) as [r|]; [|now left].
    destruct (ShortURL.is_active r); [|now left].
    destruct (negb (truthy (PyStr (ShortURL.original_url r)))); [now left|].
    right. exists c. unfold URLStatsService.increment_visit.
    rewrite increment_run. destruct (existsb _ (url_stats w)); reflexivity.
  - right. now exists c.
  - left. unfold URLStatsService.get_stats, bind, URLStatsRepository.get_by_short_code.
    now destruct (find _ (url_stats w)).
Qed.

Lemma run_op_keeps_stats_ok (rt : Runtime) (o : op) (w : World) :
  stats_ok (url_stats w) -> stats_ok (url_stats (run_op rt o w)).
Proof.
  intro H. destruct (run_op_stats rt o w) as [->|[code ->]];
    [exact H | now apply increment_keeps_stats_ok].
Qed.

Lemma reachable_stats_ok (rt : Runtime) (w : World) :
  reachable rt w -> stats_ok (url_stats w).
Proof.
  induction 1 as [|w o _ IH].
  - split; [constructor | intros r []].
  - now apply run_op_keeps_stats_ok.
Qed.

(** C8.  In every state reachable from the empty database by [shorten],
    [resolve], [increment] and [get_stats], and across every further such
    operation: no counter of an existing stats row decreases, every
    counter is non-negative, and no two stats rows share a short code. *)
Theorem stats_invariant (rt : Runtime) (w : World) (o : op) :
  reachable rt w ->
  counts_grow (url_stats w) (url_stats (run_op rt o w))
  /\ stats_ok (url_stats w)
  /\ stats_ok (url_stats (run_op rt o w)).
Proof.
  intro H. apply reachable_stats_ok in H. split; [|split].
  - destruct (run_op_stats rt o w) as [->|[code ->]];
      [apply counts_grow_refl | apply increment_counts_grow].
  - exact H.
  - now apply run_op_keeps_stats_ok.
Qed.

Lemma stats_invariant_witness :
  counts_grow (url_stats visited_world)
              (url_stats (run_op sample_runtime (Resolve (py "abcdef")) visited_world))
  /\ stats_ok (url_stats visited_world)
  /\ stats_ok (url_stats (run_op sample_runtime (Resolve (py "abcdef")) visited_world)).
Proof.
  apply (@stats_invariant sample_runtime visited_world (Resolve (py "abcdef"))).
  unfold visited_world, shortened_world. repeat constructor.
Defined.

(* ===================================================================== *)
(** * Further properties of the validator *)
(* ===================================================================== *)

Section Stripping.
Variable p : N -> bool.

Lemma lstrip_head (s r : Str.t) (c : N) :
  Str.lstrip_by p s = c :: r -> p c = false.
Proof.
  induction s as [|x s IH]; cbn [Str.lstrip_by]; [discriminate|].
  destruct (p x) eqn:E; [exact IH|]. intro H. injection H as <- _. exact E.
Qed.

Lemma lstrip_clean (s : Str.t) (c : N) :
  p c = false -> Str.lstrip_by p (c :: s) = c :: s.
Proof. intro H. cbn [Str.lstrip_by]. now rewrite H. Qed.

Lemma lstrip_all (s : Str.t) : forallb p s = true -> Str.lstrip_by p s = [].
Proof.
  induction s as [|x s IH]; cbn [forallb Str.lstrip_by]; [reflexivity|].
  intro H. apply andb_true_iff in H as [-> H]. auto.
Qed.

Lemma lstrip_incl (s : Str.t) (c : N) : In c (Str.lstrip_by p s) -> In c s.
Proof.
  induction s as [|x s IH]; cbn [Str.lstrip_by]; [tauto|].
  destruct (p x); [intro H; right; auto | tauto].
Qed.

Lemma rstrip_incl (s : Str.t) (c : N) : In c (Str.rstrip_by p s) -> In c s.
Proof.
  unfold Str.rstrip_by. intro H. apply in_rev in H. apply lstrip_incl in H.
  now apply in_rev in H.
Qed.

(** Right-stripping a string that ends in a kept character changes
    nothing, whatever stands before that character. *)
Lemma rstrip_clean (s : Str.t) (c : N) :
  p c = false -> Str.rstrip_by p (s ++ [c]) = s ++ [c].
Proof.
  intro H. unfold Str.rstrip_by. rewrite rev_app_distr. cbn [rev app].
  rewrite lstrip_clean by exact H. cbn [rev]. now rewrite rev_involutive.
Qed.

(** A non-empty result of right-stripping ends in a kept character. *)
Lemma rstrip_last (s : Str.t) :
  Str.rstrip_by p s = [] \/ exists r c, Str.rstrip_by p s = r ++ [c] /\ p c = false.
Proof.
  unfold Str.rstrip_by. destruct (Str.lstrip_by p (rev s)) as [|c r] eqn:E.
  - now left.
  - right. exists (rev r), c. split; [reflexivity|]. exact (@lstrip_head _ _ _ E).
Qed.

(** Right-stripping keeps the first character of a string that starts
    with a kept character. *)
Lemma rstrip_cons (s : Str.t) (c : N) :
  p c = false -> exists r, Str.rstrip_by p (c :: s) = c :: r.
Proof.
  intro H. unfold Str.rstrip_by. cbn [rev].
  assert (G : forall a, exists b, Str.lstrip_by p (a ++ [c]) = b ++ [c]).
  { induction a as [|x a [b IH]]; cbn [app Str.lstrip_by].
    - rewrite H. now exists [].
    - destruct (p x); [now exists b | now exists (x :: a)]. }
  destruct (G (rev s)) as [b ->]. rewrite rev_app_distr. cbn [rev app]. eauto.
Qed.

End Stripping.

(** A string that starts and ends with a character that is not white
    space is its own trimmed form. *)
Lemma strip_of_clean (s m r : Str.t) (a z : N) :
  Str.isspace a = false -> Str.isspace z = false ->
  s = a :: m -> s = r ++ [z] -> Str.strip s = s.
Proof.
  intros Ha Hz Hs Hr. unfold Str.strip.
  rewrite Hs at 1. rewrite lstrip_clean by exact Ha. rewrite <- Hs.
  rewrite Hr. now apply rstrip_clean.
Qed.

(** A trimmed string is empty or starts and ends with a character that
    is not white space. *)
Lemma strip_shape (s : Str.t) :
  Str.strip s = []
  \/ exists a m r z,
       Str.strip s = a :: m /\ Str.strip s = r ++ [z]
       /\ Str.isspace a = false /\ Str.isspace z = false.
Proof.
  unfold Str.strip.
  destruct (Str.lstrip_by Str.isspace s) as [|a m] eqn:L; [now left|].
  right. pose proof (@lstrip_head _ _ _ _ L) as Ha.
  destruct (@rstrip_cons Str.isspace m a Ha) as [m' Hm'].
  destruct (@rstrip_last Str.isspace (a :: m)) as [E|(r & z & E & Hz)].
  - rewrite Hm' in E. discriminate.
  - exists a, m', r, z. auto.
Qed.

Lemma strip_strip (s : Str.t) : Str.strip (Str.strip s) = Str.strip s.
Proof.
  destruct (strip_shape s) as [->|(a & m & r & z & Ha & Hz & Hsa & Hsz)]; [reflexivity|].
  exact (@strip_of_clean _ _ _ _ _ Hsa Hsz Ha Hz).
Qed.

Lemma strip_prefixed (s : Str.t) :
  Str.strip s <> [] ->
  Str.strip (py "https://" ++ Str.strip s) = py "https://" ++ Str.strip s.
Proof.
  intro Hne.
  destruct (strip_shape s) as [E|(a & m & r & z & Ha & Hz & Hsa & Hsz)]; [contradiction|].
  apply (@strip_of_clean _ (skipn 1 (py "https://") ++ Str.strip s)
                         (py "https://" ++ r) 104%N z); try assumption; try reflexivity.
  rewrite Hz. now rewrite app_assoc.
Qed.

(** X1.  Normalizing is idempotent: the normalized form of an accepted
    input is accepted and is its own normalized form. *)
Theorem normalize_idempotent (rt : Runtime) (input n : Str.t) :
  UrlValidator.validate_url rt input = Ok n ->
  UrlValidator.validate_url rt n = Ok n.
Proof.
  intro V. pose proof (@validate_url_scheme _ _ _ V) as Hs.
  pose proof (@validated_truthy _ _ _ V) as Ht.
  apply validate_url_ok in V as (Hne & Hn & parsed & U & Hsch & Hnl & Hdot).
  assert (Hstrip : Str.strip n = n).
  { rewrite Hn. destruct (Str.startswith_any _ (Str.strip input));
      [apply strip_strip | now apply strip_prefixed]. }
  unfold UrlValidator.validate_url. rewrite Hstrip, Ht. cbn [negb orb].
  rewrite Hs. cbn [negb]. rewrite U. cbn [rbind].
  assert (Hin : existsb (Str.eqb (Urllib.scheme parsed)) [py "http"; py "https"] = true).
  { cbn [existsb]. destruct Hsch as [->| ->]; rewrite Str_eqb_refl;
      [reflexivity | apply orb_true_r]. }
  rewrite Hin. cbn [negb].
  destruct (Urllib.netloc parsed) as [|c l] eqn:N; [contradiction|].
  cbn [truthy List.length Nat.eqb negb]. rewrite Hdot. reflexivity.
Qed.

Lemma normalize_idempotent_witness :
  UrlValidator.validate_url sample_runtime (py "https://Example.com/Path")
  = Ok (py "https://Example.com/Path").
Proof.
  apply (@normalize_idempotent sample_runtime (py "  Example.com/Path ")).
  vm_compute. reflexivity.
Defined.

(** X2.  An input made of white space only, the empty input included,
    is rejected with status 400 and the detail [URL cannot be empty]. *)
Theorem normalize_blank_fails (rt : Runtime) (input : Str.t) :
  forallb Str.isspace input = true ->
  UrlValidator.validate_url rt input
  = Raise (HTTPException 400 "URL cannot be empty").
Proof.
  intro H. unfold UrlValidator.validate_url, Str.strip.
  rewrite (@lstrip_all _ _ H). cbn [Str.rstrip_by rev Str.lstrip_by truthy List.length
                                   Nat.eqb negb].
  rewrite orb_true_r. reflexivity.
Qed.

Lemma normalize_blank_fails_witness :
  UrlValidator.validate_url sample_runtime [32; 9; 160; 8195; 10]%N
  = Raise (HTTPException 400 "URL cannot be empty").
Proof. apply normalize_blank_fails. vm_compute. reflexivity. Defined.

Lemma startswith_split (p s : Str.t) :
  Str.startswith p s = true -> exists r, s = p ++ r.
Proof.
  revert s; induction p as [|x p IH]; intros s H; [now exists s|].
  destruct s as [|y s]; [discriminate|]. cbn [Str.startswith] in H.
  apply andb_true_iff in H as [Hx H]. apply N.eqb_eq in Hx as ->.
  destruct (IH _ H) as [r ->]. now exists r.
Qed.

Lemma has_scheme_split (s : Str.t) :
  has_scheme s = true ->
  exists r, s = py "http://" ++ r \/ s = py "https://" ++ r.
Proof.
  unfold has_scheme, Str.startswith_any. cbn [existsb]. intro H.
  apply orb_true_iff in H as [H|H]; [|apply orb_true_iff in H as [H|H]; [|discriminate]];
    apply startswith_split in H as [r ->]; exists r; auto.
Qed.

(** The parse of a string that starts with one of the two prefixes has
    the scheme of that prefix. *)
Lemma urlparse_scheme (rt : Runtime) (s : Str.t) (parsed : Urllib.ParseResult) :
  has_scheme s = true ->
  Urllib.urlparse rt s = Ok parsed ->
  Urllib.scheme parsed = py "http" \/ Urllib.scheme parsed = py "https".
Proof.
  intros Hs. apply has_scheme_split in Hs as [r [-> | ->]];
    unfold Urllib.urlparse, Urllib.urlsplit, Urllib.check_bracketed_netloc,
      Urllib.checknetloc; cbv zeta.
  - change (Str.lstrip_by Urllib.c0_control_or_space (py "http://" ++ r))
      with (py "http://" ++ r).
    change (Urllib.remove_unsafe (py "http://" ++ r))
      with ([104; 116; 116; 112; 58; 47; 47]%N ++ Urllib.remove_unsafe r).
    generalize (Urllib.remove_unsafe r) as T. intro T. cbn [app].
    set (U := (104 :: 116 :: 116 :: 112 :: 58 :: 47 :: 47 :: T)%N).
    change (Str.find Urllib.colon U) with 4%Z.
    change (0 <? 4)%Z with true.
    change (Str.is_ascii_letter (hd 0%N U)) with true.
    change (Str.upto 4 U) with [104; 116; 116; 112]%N.
    change (forallb Urllib.scheme_char [104; 116; 116; 112]%N) with true.
    change (Str.lower [104; 116; 116; 112]%N) with (py "http").
    cbn [andb]. generalize (Str.from (4 + 1) U) as V. intro V. clear U.
    repeat match goal with
           | |- context [let '(_, _) := ?p in _] => destruct p
           | |- context [if ?b then _ else _] => destruct b
           | |- context [match ?o with Some _ => _ | None => _ end] => destruct o
           | |- _ => progress cbn [rbind]
           end;
      intro E; try discriminate; injection E as <-; now left.
  - change (Str.lstrip_by Urllib.c0_control_or_space (py "https://" ++ r))
      with (py "https://" ++ r).
    change (Urllib.remove_unsafe (py "https://" ++ r))
      with ([104; 116; 116; 112; 115; 58; 47; 47]%N ++ Urllib.remove_unsafe r).
    generalize (Urllib.remove_unsafe r) as T. intro T. cbn [app].
    set (U := (104 :: 116 :: 116 :: 112 :: 115 :: 58 :: 47 :: 47 :: T)%N).
    change (Str.find Urllib.colon U) with 5%Z.
    change (0 <? 5)%Z with true.
    change (Str.is_ascii_letter (hd 0%N U)) with true.
    change (Str.upto 5 U) with [104; 116; 116; 112; 115]%N.
    change (forallb Urllib.scheme_char [104; 116; 116; 112; 115]%N) with true.
    change (Str.lower [104; 116; 116; 112; 115]%N) with (py "https").
    cbn [andb]. generalize (Str.from (5 + 1) U) as V. intro V. clear U.
    repeat match goal with
           | |- context [let '(_, _) := ?p in _] => destruct p
           | |- context [if ?b then _ else _] => destruct b
           | |- context [match ?o with Some _ => _ | None => _ end] => destruct o
           | |- _ => progress cbn [rbind]
           end;
      intro E; try discriminate; injection E as <-; now right.
Qed.

Lemma upto_incl (i : Z) (s : Str.t) (c : N) : In c (Str.upto i s) -> In c s.
Proof.
  unfold Str.upto. generalize (Z.to_nat i) as n. intro n. revert s.
  induction n as [|n IH]; intros [|x s]; cbn [firstn In]; try tauto.
  intros [H|H]; [now left | right; auto].
Qed.

Lemma skipn_incl (n : nat) (s : Str.t) (c : N) : In c (skipn n s) -> In c s.
Proof.
  revert s. induction n as [|n IH]; intros [|x s]; cbn [skipn In]; try tauto.
  intro H. right. auto.
Qed.

Lemma from_incl (i : Z) (s : Str.t) (c : N) : In c (Str.from i s) -> In c s.
Proof. apply skipn_incl. Qed.

Lemma remove_unsafe_incl (s : Str.t) (c : N) : In c (Urllib.remove_unsafe s) -> In c s.
Proof.
  unfold Urllib.remove_unsafe, Str.remove. intro H.
  repeat (apply filter_In in H as [H _]). exact H.
Qed.

(** The network location of a parse is made of characters of the
    parsed string. *)
Lemma urlparse_netloc_incl (rt : Runtime) (s : Str.t) (parsed : Urllib.ParseResult) :
  Urllib.urlparse rt s = Ok parsed ->
  forall c, In c (Urllib.netloc parsed) -> In c s.
Proof.
  unfold Urllib.urlparse, Urllib.urlsplit, Urllib.check_bracketed_netloc,
    Urllib.checknetloc, Urllib.splitnetloc; cbv zeta.
  assert (H : forall c, In c (Urllib.remove_unsafe
                                (Str.lstrip_by Urllib.c0_control_or_space s)) -> In c s).
  { intros c Hc. apply remove_unsafe_incl, lstrip_incl in Hc. exact Hc. }
  revert H. generalize (Urllib.remove_unsafe (Str.lstrip_by Urllib.c0_control_or_space s)).
  intros u Hu.
  repeat match goal with
         | |- context [let '(_, _) := (_, _) in _] => cbv iota beta
         | |- context [if ?b then _ else _] => destruct b
         | |- context [let '(_, _) := ?p in _] => destruct p
         | |- context [match ?o with Some _ => _ | None => _ end] => destruct o
         | |- _ => progress cbn [rbind]
         end;
    intro E; try discriminate; injection E as <-; cbn [Urllib.netloc];
    intros c Hc; try (destruct Hc; fail);
    apply upto_incl in Hc; apply (skipn_incl 2) in Hc; try apply from_incl in Hc; auto.
Qed.

(** X3.  Every failure of [validate_url] is an [HTTPException] with
    status 400, and its detail is [URL cannot be empty],
    [Invalid URL format], [Invalid domain] or [Invalid URL: ] followed by
    the parser's message.  The detail [URL must use http or https] is
    never produced: by the time the scheme is tested the string starts
    with one of the two prefixes. *)
Theorem normalize_failures (rt : Runtime) (input : Str.t) (e : exn) :
  UrlValidator.validate_url rt input = Raise e ->
  exists detail,
    e = HTTPException 400 detail
    /\ (detail = "URL cannot be empty"%string
        \/ detail = "Invalid URL format"%string
        \/ detail = "Invalid domain"%string
        \/ exists msg, detail = ("Invalid URL: " ++ msg)%string)
    /\ detail <> "URL must use http or https"%string.
Proof.
  unfold UrlValidator.validate_url.
  destruct (negb _ || negb _).
  { rewrite validator_raise. intro E; injection E as <-.
    eexists; split; [reflexivity|]. split; [auto | discriminate]. }
  match goal with |- try_except (rbind (Urllib.urlparse _ ?u) _) _ = _ -> _ =>
    assert (Hs : has_scheme u = true) end.
  { destruct (Str.startswith_any _ (Str.strip input)) eqn:P; cbn [negb]; [exact P|].
    unfold has_scheme, Str.startswith_any. cbn [existsb].
    apply orb_true_iff. right. apply orb_true_iff. left. apply startswith_app. }
  match goal with |- try_except (rbind (Urllib.urlparse _ ?u) _) _ = _ -> _ =>
    revert Hs; generalize u; intros url Hs end.
  destruct (Urllib.urlparse rt url) as [parsed|e'] eqn:U; cbn [rbind try_except].
  - assert (Hin : existsb (Str.eqb (Urllib.scheme parsed)) [py "http"; py "https"] = true).
    { cbn [existsb]. destruct (@urlparse_scheme _ _ _ Hs U) as [->| ->];
        rewrite Str_eqb_refl; [reflexivity | apply orb_true_r]. }
    rewrite Hin. cbn [negb].
    destruct (truthy (PyStr (Urllib.netloc parsed))); cbn [negb].
    + destruct (Str.contains Urllib.dot (Urllib.netloc parsed)); cbn [negb];
        [discriminate|].
      rewrite validator_raise. cbn [isinstance_HTTPException]. intro E; injection E as <-.
      eexists; split; [reflexivity|]. split; [auto | discriminate].
    + rewrite validator_raise. cbn [isinstance_HTTPException]. intro E; injection E as <-.
      eexists; split; [reflexivity|]. split; [auto | discriminate].
  - apply urlparse_raises in U as [m ->]. cbn [isinstance_HTTPException str_exn].
    rewrite validator_raise. intro E; injection E as <-.
    eexists; split; [reflexivity|].
    split; [right; right; right; exists m; reflexivity | discriminate].
Qed.

Lemma normalize_failures_witness :
  exists detail,
    HTTPException 400 "Invalid URL: Invalid IPv6 URL" = HTTPException 400 detail
    /\ (detail = "URL cannot be empty"%string
        \/ detail = "Invalid URL format"%string
        \/ detail = "Invalid domain"%string
        \/ exists msg, detail = ("Invalid URL: " ++ msg)%string)
    /\ detail <> "URL must use http or https"%string.
Proof.
  apply (@normalize_failures sample_runtime (py "http://[::1") _).
  vm_compute. reflexivity.
Defined.

(** X4.  An input without a dot is never accepted. *)
Theorem normalize_needs_a_dot (rt : Runtime) (input : Str.t) :
  Str.contains Urllib.dot input = false ->
  exists e, UrlValidator.validate_url rt input = Raise e /\ InvalidURL e.
Proof.
  intro Hnodot.
  destruct (UrlValidator.validate_url rt input) as [n|e] eqn:V.
  - exfalso. apply validate_url_ok in V as (_ & Hn & parsed & U & _ & _ & Hdot).
    assert (Hin : In Urllib.dot n).
    { apply (@urlparse_netloc_incl _ _ _ U).
      unfold Str.contains in Hdot. apply existsb_exists in Hdot as (c & Hc & Hcd).
      apply N.eqb_eq in Hcd. now subst. }
    assert (Hinput : In Urllib.dot (Str.strip input)).
    { rewrite Hn in Hin. destruct (Str.startswith_any _ (Str.strip input)); [exact Hin|].
      apply in_app_or in Hin as [Hin|Hin]; [|exact Hin].
      vm_compute in Hin. repeat (destruct Hin as [Hin|Hin]; [discriminate Hin|]).
      destruct Hin. }
    unfold Str.strip in Hinput. apply rstrip_incl, lstrip_incl in Hinput.
    assert (Hc : Str.contains Urllib.dot input = true).
    { unfold Str.contains. apply existsb_exists. exists Urllib.dot.
      split; [exact Hinput | apply N.eqb_refl]. }
    congruence.
  - exists e. split; [reflexivity|]. exact (@validate_url_raises _ _ _ V).
Qed.

Lemma normalize_needs_a_dot_witness :
  exists e, UrlValidator.validate_url sample_runtime (py "http://localhost:8000/docs") = Raise e
            /\ InvalidURL e.
Proof. apply normalize_needs_a_dot. vm_compute. reflexivity. Defined.

(* ===================================================================== *)
(** * Further properties of code generation and shortening *)
(* ===================================================================== *)

Lemma characters_alphanumeric (i : nat) :
  alphanumeric (nth (i mod List.length ShortCodeGenerator.characters)
                    ShortCodeGenerator.characters 0%N) = true.
Proof.
  assert (H : forallb alphanumeric ShortCodeGenerator.characters = true)
    by (vm_compute; reflexivity).
  apply (proj1 (forallb_forall _ _) H). apply nth_In.
  apply Nat.mod_upper_bound. vm_compute. discriminate.
Qed.


Lemma drawn_code_well_formed (rt : Runtime) (pos : nat) :
  well_formed_code (drawn_code rt pos).
Proof.
  unfold well_formed_code, drawn_code. split.
  - now rewrite length_map, length_seq.
  - apply forallb_forall. intros c Hc. apply in_map_iff in Hc as (i & <- & _).
    apply characters_alphanumeric.
Qed.

Lemma first_fresh (f : nat -> bool) (n : nat) :
  (exists k, k < n /\ f k = false /\ forall i, i < k -> f i = true)
  \/ (forall i, i < n -> f i = true).
Proof.
  induction n as [|n [(k & Hk & Hf & Hlt)|Hall]].
  - right. intros i Hi. lia.
  - left. exists k. repeat split; [lia | exact Hf | exact Hlt].
  - destruct (f n) eqn:E.
    + right. intros i Hi. destruct (Nat.eq_dec i n) as [->|Hne]; [exact E|].
      apply Hall. lia.
    + left. exists n. repeat split; [lia | exact E | exact Hall].
Qed.

Lemma taken_shift (rt : Runtime) (i : nat) (w : World) :
  taken rt i (set_random_pos (6 + random_pos w) w) = taken rt (S i) w.
Proof.
  unfold taken. cbn [urls random_pos set_random_pos].
  replace (6 * i + (6 + random_pos w)) with (6 * S i + random_pos w) by lia.
  reflexivity.
Qed.

(** The loop returns the row of its first attempt whose code is free. *)
Lemma allocate_first_fresh (rt : Runtime) (u : Str.t) (n k : nat) (w : World) :
  k < n ->
  (forall i, i < k -> taken rt i w = true) ->
  taken rt k w = false ->
  URLService.allocate rt u n w = (Ok (allocated_row rt u k w), allocated_world rt u k w).
Proof.
  revert k w. induction n as [|n IH]; intros k w Hk Hbefore Hfree; [lia|].
  rewrite allocate_run. cbv zeta.
  change (existsb _ (urls w)) with (taken rt 0 w).
  destruct k as [|k].
  - rewrite Hfree. reflexivity.
  - rewrite (Hbefore 0) by lia.
    rewrite (IH k) by (try lia; try (intros i Hi); rewrite taken_shift; auto with arith).
    unfold allocated_world, allocated_row. cbn [urls urls_id_seq url_stats
      url_stats_id_seq random_pos clock_pos set_random_pos].
    replace (6 * k + (6 + random_pos w)) with (6 * S k + random_pos w) by lia.
    replace (6 * S k + (6 + random_pos w)) with (6 * S (S k) + random_pos w) by lia.
    reflexivity.
Qed.

(** The two ways in which [shorten] ends on a valid URL. *)
Lemma allocate_outcome (rt : Runtime) (u : Str.t) (w : World) :
  (exists k, k < URLService.MAX_ATTEMPTS
             /\ taken rt k w = false
             /\ (forall i, i < k -> taken rt i w = true)
             /\ URLService.allocate rt u URLService.MAX_ATTEMPTS w
                = (Ok (allocated_row rt u k w), allocated_world rt u k w))
  \/ ((forall i, i < URLService.MAX_ATTEMPTS -> taken rt i w = true)
      /\ URLService.allocate rt u URLService.MAX_ATTEMPTS w
         = (Raise (NameError "HTTPException"), set_random_pos (30 + random_pos w) w)).
Proof.
  destruct (first_fresh (fun i => taken rt i w) URLService.MAX_ATTEMPTS)
    as [(k & Hk & Hf & Hlt)|Hall].
  - left. exists k. repeat split; try assumption. now apply allocate_first_fresh.
  - right. split; [exact Hall|]. now apply allocate_exhausted.
Qed.

Lemma not_taken_fresh (rt : Runtime) (k : nat) (w : World) :
  taken rt k w = false ->
  forall r, In r (urls w) ->
    ShortURL.short_code r <> drawn_code rt (6 * k + random_pos w).
Proof.
  unfold taken. intros H r Hin E.
  assert (T : existsb (fun r => Str.eqb (ShortURL.short_code r)
                                        (drawn_code rt (6 * k + random_pos w)))
                      (urls w) = true).
  { apply existsb_exists. exists r. split; [exact Hin | now apply Str_eqb_eq]. }
  congruence.
Qed.

(** X6.  [shorten] retries on collision: on a valid URL it returns the
    row built from the first of its five generated codes that is not
    stored yet, whenever there is one. *)
Theorem shorten_takes_first_free_code (rt : Runtime) (u n : Str.t) (k : nat) (w : World) :
  UrlValidator.validate_url rt u = Ok n ->
  k < 5 ->
  (forall i, i < k -> taken rt i w = true) ->
  taken rt k w = false ->
  URLService.create_short_url rt u w
  = (Ok (allocated_row rt n k w), allocated_world rt n k w).
Proof.
  intros V Hk Hbefore Hfree.
  unfold URLService.create_short_url, bind, lift. rewrite V.
  now apply allocate_first_fresh.
Qed.

Lemma shorten_takes_first_free_code_witness :
  URLService.create_short_url sample_runtime (py "example.org") rewound_world
  = (Ok (allocated_row sample_runtime (py "https://example.org") 1 rewound_world),
     allocated_world sample_runtime (py "https://example.org") 1 rewound_world).
Proof.
  apply shorten_takes_first_free_code.
  - vm_compute. reflexivity.
  - lia.
  - intros i Hi. destruct i as [|i]; [vm_compute; reflexivity | lia].
  - vm_compute. reflexivity.
Defined.

(** X7.  What a successful [shorten] leaves behind: the stored mappings
    with the returned row appended, the stats table untouched, and a row
    that is active, carries the next primary key, the normalized URL
    (hence a scheme) and a six-character alphanumeric code that no
    mapping stored before carries. *)
Theorem shorten_success (rt : Runtime) (u : Str.t) (w w' : World) (rec : ShortURL.t) :
  URLService.create_short_url rt u w = (Ok rec, w') ->
  urls w' = urls w ++ [rec]
  /\ url_stats w' = url_stats w
  /\ urls_id_seq w' = (urls_id_seq w + 1)%Z
  /\ ShortURL.id rec = Some (urls_id_seq w)
  /\ ShortURL.is_active rec = true
  /\ UrlValidator.validate_url rt u = Ok (ShortURL.original_url rec)
  /\ has_scheme (ShortURL.original_url rec) = true
  /\ well_formed_code (ShortURL.short_code rec)
  /\ forall r, In r (urls w) -> ShortURL.short_code r <> ShortURL.short_code rec.
Proof.
  unfold URLService.create_short_url, bind at 1, lift.
  destruct (UrlValidator.validate_url rt u) as [n|e] eqn:V; [|discriminate].
  destruct (allocate_outcome rt n w) as [(k & Hk & Hf & _ & ->)|[_ ->]]; [|discriminate].
  intro E. injection E as <- <-.
  cbn [allocated_world allocated_row urls url_stats urls_id_seq ShortURL.id
       ShortURL.is_active ShortURL.original_url ShortURL.short_code].
  do 6 (split; [reflexivity|]).
  split; [exact (@validate_url_scheme _ _ _ V)|].
  split; [apply drawn_code_well_formed | now apply not_taken_fresh].
Qed.

Lemma shorten_success_witness :
  urls shortened_world
  = urls empty_world ++ [allocated_row sample_runtime (py "https://example.com") 0 empty_world]
  /\ url_stats shortened_world = url_stats empty_world
  /\ urls_id_seq shortened_world = (urls_id_seq empty_world + 1)%Z
  /\ ShortURL.id (allocated_row sample_runtime (py "https://example.com") 0 empty_world)
     = Some (urls_id_seq empty_world)
  /\ ShortURL.is_active (allocated_row sample_runtime (py "https://example.com") 0 empty_world)
     = true
  /\ UrlValidator.validate_url sample_runtime (py "example.com")
     = Ok (ShortURL.original_url
             (allocated_row sample_runtime (py "https://example.com") 0 empty_world))
  /\ has_scheme (ShortURL.original_url
                   (allocated_row sample_runtime (py "https://example.com") 0 empty_world))
     = true
  /\ well_formed_code
       (ShortURL.short_code
          (allocated_row sample_runtime (py "https://example.com") 0 empty_world))
  /\ forall r, In r (urls empty_world) ->
       ShortURL.short_code r
       <> ShortURL.short_code
            (allocated_row sample_runtime (py "https://example.com") 0 empty_world).
Proof.
  apply (@shorten_success sample_runtime (py "example.com") empty_world shortened_world).
  vm_compute. reflexivity.
Defined.

(** X8.  How [shorten] fails.  An exception of the validator is passed
    on as it is, before the random source or the session is used.  On a
    valid URL, when each of the five generated codes is found stored, a
    [NameError] is raised, for the class named in the [raise] statement
    is not imported.  And a call that fails has left both tables as it
    found them. *)
Theorem shorten_failure (rt : Runtime) (u : Str.t) (w : World) :
  (forall e, UrlValidator.validate_url rt u = Raise e ->
     InvalidURL e /\ URLService.create_short_url rt u w = (Raise e, w))
  /\ (forall n, UrlValidator.validate_url rt u = Ok n ->
        (forall i, i < 5 -> taken rt i w = true) ->
        exists w',
          URLService.create_short_url rt u w = (Raise (NameError "HTTPException"), w')
          /\ urls w' = urls w /\ url_stats w' = url_stats w)
  /\ (forall e w', URLService.create_short_url rt u w = (Raise e, w') ->
        urls w' = urls w /\ url_stats w' = url_stats w).
Proof.
  unfold URLService.create_short_url, bind, lift.
  destruct (UrlValidator.validate_url rt u) as [n|e'] eqn:V.
  - split; [intros e E; discriminate E|]. split.
    + intros n' E Hall. injection E as <-.
      rewrite (@allocate_exhausted rt n URLService.MAX_ATTEMPTS w Hall).
      eexists. repeat split.
    + intros e w'.
      destruct (allocate_outcome rt n w) as [(k & _ & _ & _ & ->)|[_ ->]]; [discriminate|].
      intro E. injection E as <- <-. now split.
  - split.
    + intros e E. injection E as <-. split; [|reflexivity].
      exact (@validate_url_raises _ _ _ V).
    + split; [intros n E; discriminate E|].
      intros e w' E. injection E as <- <-. now split.
Qed.

Lemma shorten_failure_witness :
  (InvalidURL (HTTPException 400 "Invalid domain")
   /\ URLService.create_short_url constant_runtime (py "no dot") crowded_world
      = (Raise (HTTPException 400 "Invalid domain"), crowded_world))
  /\ (exists w',
        URLService.create_short_url constant_runtime (py "example.org") crowded_world
        = (Raise (NameError "HTTPException"), w')
        /\ urls w' = urls crowded_world /\ url_stats w' = url_stats crowded_world).
Proof.
  split.
  - apply (proj1 (shorten_failure constant_runtime (py "no dot") crowded_world)).
    vm_compute. reflexivity.
  - apply (proj1 (proj2 (shorten_failure constant_runtime (py "example.org") crowded_world))
                 (py "https://example.org")).
    + vm_compute. reflexivity.
    + intros i _. vm_compute. reflexivity.
Defined.

(** X9.  Two mappings created one after the other, for the same URL or
    not, carry different short codes. *)
Theorem shorten_twice_distinct (rt : Runtime) (u1 u2 : Str.t) (w w1 w2 : World)
        (r1 r2 : ShortURL.t) :
  URLService.create_short_url rt u1 w = (Ok r1, w1) ->
  URLService.create_short_url rt u2 w1 = (Ok r2, w2) ->
  ShortURL.short_code r1 <> ShortURL.short_code r2
  /\ urls w2 = urls w ++ [r1; r2].
Proof.
  intros H1 H2.
  unfold URLService.create_short_url, bind, lift in H1, H2.
  destruct (UrlValidator.validate_url rt u1) as [n1|] eqn:V1; [|discriminate].
  destruct (UrlValidator.validate_url rt u2) as [n2|] eqn:V2; [|discriminate].
  destruct (allocate_outcome rt n1 w) as [(k1 & _ & _ & _ & E1)|[_ E1]];
    rewrite E1 in H1; [|discriminate].
  destruct (allocate_outcome rt n2 w1) as [(k2 & _ & Hf & _ & E2)|[_ E2]];
    rewrite E2 in H2; [|discriminate].
  injection H1 as <- <-. injection H2 as <- <-. split.
  - apply (@not_taken_fresh _ _ _ Hf). cbn [allocated_world urls].
    apply in_or_app. right. now left.
  - cbn [allocated_world urls]. now rewrite <- app_assoc.
Qed.

Lemma shorten_twice_distinct_witness :
  ShortURL.short_code (allocated_row sample_runtime (py "https://example.com") 0 empty_world)
  <> ShortURL.short_code
       (allocated_row sample_runtime (py "https://example.com") 0 shortened_world)
  /\ urls (allocated_world sample_runtime (py "https://example.com") 0 shortened_world)
     = urls empty_world
       ++ [allocated_row sample_runtime (py "https://example.com") 0 empty_world;
           allocated_row sample_runtime (py "https://example.com") 0 shortened_world].
Proof.
  apply (@shorten_twice_distinct sample_runtime (py "example.com") (py " example.com")
           empty_world shortened_world).
  - vm_compute. reflexivity.
  - vm_compute. reflexivity.
Defined.

(* ===================================================================== *)
(** * Further properties of redirects and visit counting *)
(* ===================================================================== *)

Lemma find_snoc (A : Type) (p : A -> bool) (l : list A) (x : A) :
  find p (l ++ [x])
  = match find p l with
    | Some y => Some y
    | None => if p x then Some x else None
    end.
Proof.
  induction l as [|y l IH]; cbn [app find]; [reflexivity|].
  destruct (p y); [reflexivity | exact IH].
Qed.

Lemma find_none_existsb (A : Type) (p : A -> bool) (l : list A) :
  find p l = None <-> existsb p l = false.
Proof.
  induction l as [|y l IH]; cbn [find existsb]; [tauto|].
  destruct (p y); cbn [orb]; [split; discriminate | exact IH].
Qed.

Section CountingVisits.
Variables (rt : Runtime) (code : Str.t) (w : World).

(** A visit raises the counter of its short code by one. *)
Lemma increment_count :
  visit_count_of code (snd (URLStatsRepository.increment_visit_count rt code w))
  = (visit_count_of code w + 1)%Z.
Proof.
  unfold visit_count_of. rewrite increment_run.
  destruct (existsb _ (url_stats w)) eqn:E; cbn [snd url_stats].
  - revert E. induction (url_stats w) as [|x rows IH]; [discriminate|].
    cbn [map find existsb].
    destruct (Str.eqb (URLStats.short_code x) code) eqn:Hx; cbn [URLStatsRepository.bump
      URLStats.short_code orb]; rewrite Hx; [reflexivity | exact IH].
  - rewrite find_snoc. apply find_none_existsb in E. rewrite E.
    cbn [first_visit_row URLStats.short_code URLStats.visit_count].
    now rewrite Str_eqb_refl.
Qed.

(** A visit leaves the row selected for any other short code as it was. *)
Lemma increment_other (code' : Str.t) :
  code' <> code ->
  find (fun r => Str.eqb (URLStats.short_code r) code')
       (url_stats (snd (URLStatsRepository.increment_visit_count rt code w)))
  = find (fun r => Str.eqb (URLStats.short_code r) code') (url_stats w).
Proof.
  intro Hne. rewrite increment_run.
  destruct (existsb _ (url_stats w)) eqn:E; cbn [snd url_stats].
  - clear E. induction (url_stats w) as [|x rows IH]; [reflexivity|].
    cbn [map find].
    destruct (Str.eqb (URLStats.short_code x) code) eqn:Hx.
    + apply Str_eqb_eq in Hx. cbn [URLStatsRepository.bump URLStats.short_code].
      rewrite Hx. apply not_eq_sym, Str_eqb_neq in Hne. rewrite Hne. exact IH.
    + destruct (Str.eqb (URLStats.short_code x) code'); [reflexivity | exact IH].
  - rewrite find_snoc. cbn [first_visit_row URLStats.short_code].
    apply not_eq_sym, Str_eqb_neq in Hne. rewrite Hne.
    now destruct (find _ (url_stats w)).
Qed.

Lemma increment_urls :
  urls (snd (URLStatsRepository.increment_visit_count rt code w)) = urls w
  /\ urls_id_seq (snd (URLStatsRepository.increment_visit_count rt code w)) = urls_id_seq w.
Proof. rewrite increment_run. now destruct (existsb _ (url_stats w)). Qed.

(** [GET /{code}], in one equation. *)
Lemma redirect_run :
  Endpoints.redirect_to_url rt code w
  = match find (fun r => Str.eqb (ShortURL.short_code r) code) (urls w) with
    | Some r =>
        if ShortURL.is_active r && truthy (PyStr (ShortURL.original_url r))
        then (Ok (Endpoints.mkRedirectResponse
                    (if has_scheme (ShortURL.original_url r)
                     then ShortURL.original_url r
                     else py "https://" ++ ShortURL.original_url r) 307),
              snd (URLStatsRepository.increment_visit_count rt code w))
        else (Raise (HTTPException 404 "Short URL not found"), w)
    | None => (Raise (HTTPException 404 "Short URL not found"), w)
    end.
Proof.
  unfold Endpoints.redirect_to_url, bind at 1.
  unfold URLService.get_original_url, bind, URLRepository.get_by_short_code, ret.
  destruct (find _ (urls w)) as [r|]; [|reflexivity].
  destruct (ShortURL.is_active r); [|reflexivity]. cbn [andb].
  destruct (truthy (PyStr (ShortURL.original_url r))); [|reflexivity]. cbn [negb].
  unfold URLStatsService.increment_visit, has_scheme. rewrite increment_run.
  destruct (existsb _ (url_stats w));
    destruct (Str.startswith_any _ (ShortURL.original_url r)); reflexivity.
Qed.

End CountingVisits.

Lemma has_scheme_prefixed (s : Str.t) : has_scheme (py "https://" ++ s) = true.
Proof.
  unfold has_scheme, Str.startswith_any. cbn [existsb].
  apply orb_true_iff. right. apply orb_true_iff. left. apply startswith_app.
Qed.

Lemma truthy_str (s : Str.t) : truthy (PyStr s) = false <-> s = [].
Proof. destruct s; cbn; split; intro H; try reflexivity; discriminate. Qed.

(** X10.  [GET /{code}] answers 404 [Short URL not found] exactly when
    the lookup of the code returns no mapping, an inactive mapping, or a
    mapping whose URL is the empty string; and when it answers 404 it has
    written nothing: the exception is raised before the visit is
    counted. *)
Theorem redirect_failure (rt : Runtime) (code : Str.t) (w : World) :
  (fst (Endpoints.redirect_to_url rt code w)
   = Raise (HTTPException 404 "Short URL not found")
   <-> match fst (URLRepository.get_by_short_code code w) with
       | Ok (Some r) => ShortURL.is_active r = false \/ ShortURL.original_url r = []
       | Ok None => True
       | Raise _ => False
       end)
  /\ (fst (Endpoints.redirect_to_url rt code w)
      = Raise (HTTPException 404 "Short URL not found") ->
      snd (Endpoints.redirect_to_url rt code w) = w).
Proof.
  rewrite redirect_run. unfold URLRepository.get_by_short_code. cbn [fst].
  destruct (find _ (urls w)) as [r|]; [|split; [split; auto | reflexivity]].
  destruct (ShortURL.is_active r); cbn [andb].
  - destruct (truthy (PyStr (ShortURL.original_url r))) eqn:T; cbn [fst snd].
    + split; [|discriminate]. split; [discriminate|].
      intros [H|H]; [discriminate H|]. apply truthy_str in H. congruence.
    + split; [|reflexivity]. split; [|reflexivity].
      intros _. right. now apply truthy_str.
  - cbn [fst snd]. split; [|reflexivity]. split; auto.
Qed.

Lemma redirect_failure_witness :
  fst (Endpoints.redirect_to_url sample_runtime (py "abcdef") empty_url_world)
  = Raise (HTTPException 404 "Short URL not found")
  /\ snd (Endpoints.redirect_to_url sample_runtime (py "abcdef") empty_url_world)
     = empty_url_world.
Proof.
  assert (H : fst (Endpoints.redirect_to_url sample_runtime (py "abcdef") empty_url_world)
              = Raise (HTTPException 404 "Short URL not found")).
  { apply (proj2 (proj1 (redirect_failure sample_runtime (py "abcdef") empty_url_world))).
    cbn. right. reflexivity. }
  split; [exact H|].
  exact (proj2 (redirect_failure sample_runtime (py "abcdef") empty_url_world) H).
Defined.

(** ** The [Location] header *)

Lemma quote_cons_plain (safe s : Str.t) (c : N) :
  N.ltb c 128 = true -> Urllib.unquoted safe c = true ->
  Urllib.quote safe (c :: s) = rbind (Urllib.quote safe s) (fun q => Ok (c :: q)).
Proof.
  intros Hc Hs. unfold Urllib.quote. cbn [Urllib.encode_utf8].
  unfold Urllib.encode_utf8_char. rewrite Hc. cbn [rbind].
  destruct (Urllib.encode_utf8 s) as [bs|e]; cbn [rbind app flat_map]; [|reflexivity].
  now rewrite Hs.
Qed.

(** A prefix made of characters that [quote] keeps is kept. *)
Lemma quote_plain_prefix (safe p s : Str.t) :
  forallb (fun c => N.ltb c 128 && Urllib.unquoted safe c) p = true ->
  Urllib.quote safe (p ++ s) = rbind (Urllib.quote safe s) (fun q => Ok (p ++ q)).
Proof.
  induction p as [|c p IH]; cbn [forallb app]; intro H.
  - now destruct (Urllib.quote safe s).
  - apply andb_true_iff in H as [Hc H]. apply andb_true_iff in Hc as [Hc Hs].
    rewrite quote_cons_plain, IH by assumption.
    now destruct (Urllib.quote safe s).
Qed.

Lemma location_of_plain (u : Str.t) (status : Z) :
  location_plain u = true ->
  Endpoints.location (Endpoints.mkRedirectResponse u status) = Ok u.
Proof.
  intro H. unfold Endpoints.location. cbn [Endpoints.url].
  rewrite <- (app_nil_r u) at 1. rewrite quote_plain_prefix by exact H.
  cbn. now rewrite app_nil_r.
Qed.

Lemma location_has_scheme (u loc : Str.t) (status : Z) :
  has_scheme u = true ->
  Endpoints.location (Endpoints.mkRedirectResponse u status) = Ok loc ->
  has_scheme loc = true.
Proof.
  intros Hs. unfold Endpoints.location. cbn [Endpoints.url].
  apply has_scheme_split in Hs as [r [-> | ->]];
    rewrite quote_plain_prefix by (vm_compute; reflexivity);
    destruct (Urllib.quote Endpoints.location_safe r) as [q|e]; cbn [rbind];
    intro E; try discriminate; injection E as <-; reflexivity.
Qed.

(** The space of a stored URL is sent as [%20]. *)
Example location_quotes_space :
  Endpoints.location (Endpoints.mkRedirectResponse (py "https://example.com/a b") 307)
  = Ok (py "https://example.com/a%20b").
Proof. vm_compute. reflexivity. Qed.

(** X11.  A redirect issued by [GET /{code}] has status 307 and is built
    from the URL of a stored active mapping of that code, with [https://]
    put in front when the URL carries neither prefix.  Its [Location]
    header is the percent-quoted form of that string: it starts with
    [http://] or [https://], and is the string itself when all its
    characters are ones that quoting keeps.  In the state the request
    leaves, the mappings are as they were and the counter of the code is
    one higher. *)
Theorem redirect_success (rt : Runtime) (code : Str.t) (w w' : World)
        (resp : Endpoints.RedirectResponse) :
  Endpoints.redirect_to_url rt code w = (Ok resp, w') ->
  Endpoints.status_code resp = 307%Z
  /\ (exists r,
        In r (urls w) /\ ShortURL.short_code r = code /\ ShortURL.is_active r = true
        /\ Endpoints.url resp
           = if has_scheme (ShortURL.original_url r)
             then ShortURL.original_url r
             else py "https://" ++ ShortURL.original_url r)
  /\ (forall loc, Endpoints.location resp = Ok loc -> has_scheme loc = true)
  /\ (location_plain (Endpoints.url resp) = true ->
      Endpoints.location resp = Ok (Endpoints.url resp))
  /\ urls w' = urls w
  /\ visit_count_of code w' = (visit_count_of code w + 1)%Z.
Proof.
  rewrite redirect_run.
  destruct (find _ (urls w)) as [r|] eqn:F; [|discriminate].
  destruct (ShortURL.is_active r) eqn:A; [|discriminate]. cbn [andb].
  destruct (truthy (PyStr (ShortURL.original_url r))); [|discriminate].
  intro E. injection E as <- <-. cbn [Endpoints.status_code Endpoints.url].
  split; [reflexivity|]. split.
  { apply find_some in F as [Hin Hr]. apply Str_eqb_eq in Hr.
    exists r. repeat split; assumption. }
  split.
  { intros loc. apply location_has_scheme.
    destruct (has_scheme (ShortURL.original_url r)) eqn:S;
      [exact S | apply has_scheme_prefixed]. }
  split; [apply location_of_plain|].
  split; [apply increment_urls | apply increment_count].
Qed.

Lemma redirect_success_witness :
  Endpoints.status_code (Endpoints.mkRedirectResponse (py "https://example.com") 307) = 307%Z
  /\ (exists r,
        In r (urls shortened_world) /\ ShortURL.short_code r = py "abcdef"
        /\ ShortURL.is_active r = true
        /\ Endpoints.url (Endpoints.mkRedirectResponse (py "https://example.com") 307)
           = if has_scheme (ShortURL.original_url r)
             then ShortURL.original_url r
             else py "https://" ++ ShortURL.original_url r)
  /\ (forall loc,
        Endpoints.location (Endpoints.mkRedirectResponse (py "https://example.com") 307)
        = Ok loc -> has_scheme loc = true)
  /\ (location_plain
        (Endpoints.url (Endpoints.mkRedirectResponse (py "https://example.com") 307)) = true ->
      Endpoints.location (Endpoints.mkRedirectResponse (py "https://example.com") 307)
      = Ok (Endpoints.url (Endpoints.mkRedirectResponse (py "https://example.com") 307)))
  /\ urls visited_world = urls shortened_world
  /\ visit_count_of (py "abcdef") visited_world
     = (visit_count_of (py "abcdef") shortened_world + 1)%Z.
Proof.
  apply (@redirect_success sample_runtime (py "abcdef") shortened_world visited_world).
  vm_compute. reflexivity.
Defined.

(** [GET /stats/{code}], in one equation. *)
Lemma get_url_stats_run (code : Str.t) (w : World) :
  Endpoints.get_url_stats code w
  = (Ok (Schemas.mkURLStats
           code (visit_count_of code w)
           (match find (fun r => Str.eqb (URLStats.short_code r) code) (url_stats w) with
            | Some r => Some (str_opt_datetime (URLStats.last_visited_at r))
            | None => None
            end)), w).
Proof.
  unfold Endpoints.get_url_stats, URLStatsService.get_stats,
    URLStatsRepository.get_by_short_code, visit_count_of, bind, ret, lift.
  destruct (find _ (url_stats w)) as [r|];
    cbn [dict_getitem dict_get String.eqb Ascii.eqb Bool.eqb eq_int truthy negb
         Schemas.URLStats_init]; [|reflexivity].
  now destruct (Z.eqb (URLStats.visit_count r) 0).
Qed.

Lemma resolve_times_count (rt : Runtime) (code : Str.t) (r : ShortURL.t) (n : nat)
      (w : World) :
  find (fun x => Str.eqb (ShortURL.short_code x) code) (urls w) = Some r ->
  ShortURL.is_active r = true ->
  ShortURL.original_url r <> [] ->
  urls (resolve_times rt code n w) = urls w
  /\ visit_count_of code (resolve_times rt code n w)
     = (visit_count_of code w + Z.of_nat n)%Z.
Proof.
  intros F A U. revert w F. induction n as [|n IH]; intros w F.
  - cbn [resolve_times]. split; [reflexivity | cbn; lia].
  - cbn [resolve_times]. rewrite redirect_run, F, A.
    destruct (ShortURL.original_url r) as [|c s] eqn:O; [contradiction|].
    cbn [truthy List.length Nat.eqb negb andb snd].
    destruct (increment_urls rt code w) as [Hu _].
    destruct (IH (snd (URLStatsRepository.increment_visit_count rt code w))) as [IHu IHc].
    { now rewrite Hu. }
    rewrite IHu, IHc, Hu, increment_count. split; [reflexivity | lia].
Qed.

(** X12.  Visits are counted: after [n] requests [GET /{code}] for a
    code whose mapping is active and has a non-empty URL,
    [GET /stats/{code}] reports the counter it reported before plus [n];
    starting without a stats row, it reports [n]. *)
Theorem visits_are_counted (rt : Runtime) (code : Str.t) (r : ShortURL.t) (n : nat)
        (w : World) :
  find (fun x => Str.eqb (ShortURL.short_code x) code) (urls w) = Some r ->
  ShortURL.is_active r = true ->
  ShortURL.original_url r <> [] ->
  exists before after,
    fst (Endpoints.get_url_stats code w) = Ok before
    /\ fst (Endpoints.get_url_stats code (resolve_times rt code n w)) = Ok after
    /\ Schemas.visit_count after = (Schemas.visit_count before + Z.of_nat n)%Z
    /\ ((forall s, In s (url_stats w) -> URLStats.short_code s <> code) ->
        Schemas.visit_count after = Z.of_nat n).
Proof.
  intros F A U. rewrite !get_url_stats_run. eexists _, _.
  split; [reflexivity|]. split; [reflexivity|]. cbn [Schemas.visit_count].
  destruct (@resolve_times_count rt code r n w F A U) as [_ ->].
  split; [reflexivity|]. intro Hnone. apply no_hit_iff in Hnone.
  unfold visit_count_of. now rewrite (@find_hit _ _ Hnone).
Qed.

Lemma visits_are_counted_witness :
  exists before after,
    fst (Endpoints.get_url_stats (py "abcdef") shortened_world) = Ok before
    /\ fst (Endpoints.get_url_stats
              (py "abcdef") (resolve_times sample_runtime (py "abcdef") 3 shortened_world))
       = Ok after
    /\ Schemas.visit_count after = (Schemas.visit_count before + Z.of_nat 3)%Z
    /\ ((forall s, In s (url_stats shortened_world) -> URLStats.short_code s <> py "abcdef") ->
        Schemas.visit_count after = Z.of_nat 3).
Proof.
  apply (@visits_are_counted sample_runtime (py "abcdef")
           (allocated_row sample_runtime (py "https://example.com") 0 empty_world)
           3 shortened_world).
  - vm_compute. reflexivity.
  - reflexivity.
  - discriminate.
Defined.

(** X13.  Counting a visit of one short code changes nothing for any
    other: [get_stats] of another code returns what it returned before,
    and the mappings are untouched. *)
Theorem increment_leaves_others (rt : Runtime) (code code' : Str.t) (w : World) :
  code' <> code ->
  fst (URLStatsService.get_stats
         code' (snd (URLStatsRepository.increment_visit_count rt code w)))
  = fst (URLStatsService.get_stats code' w)
  /\ urls (snd (URLStatsRepository.increment_visit_count rt code w)) = urls w.
Proof.
  intro Hne. split; [|apply increment_urls].
  unfold URLStatsService.get_stats, bind, URLStatsRepository.get_by_short_code.
  rewrite (@increment_other rt code w code' Hne).
  now destruct (find _ (url_stats w)).
Qed.

Lemma increment_leaves_others_witness :
  fst (URLStatsService.get_stats
         (py "abcdef")
         (snd (URLStatsRepository.increment_visit_count sample_runtime (py "ghijkl")
                                                        visited_world)))
  = fst (URLStatsService.get_stats (py "abcdef") visited_world)
  /\ urls (snd (URLStatsRepository.increment_visit_count sample_runtime (py "ghijkl")
                                                         visited_world))
     = urls visited_world.
Proof. apply increment_leaves_others. discriminate. Defined.

(** X14.  [GET /stats/{code}] reports the counter of the row selected
    for the code, zero without one, and reports no last visit exactly
    when no stats row carries the code; it never writes. *)
Theorem stats_endpoint_report (code : Str.t) (w : World) :
  exists s,
    Endpoints.get_url_stats code w = (Ok s, w)
    /\ Schemas.short_code s = code
    /\ Schemas.visit_count s = visit_count_of code w
    /\ (Schemas.last_visited_at s = None
        <-> forall r, In r (url_stats w) -> URLStats.short_code r <> code).
Proof.
  rewrite get_url_stats_run. eexists. split; [reflexivity|].
  split; [reflexivity|]. split; [reflexivity|]. cbn [Schemas.last_visited_at].
  rewrite <- no_hit_iff, <- find_none_existsb.
  destruct (find _ (url_stats w)); split; intro H; try discriminate; reflexivity.
Qed.

(* ===================================================================== *)
(** * Invariants of the states the HTTP interface can produce *)
(* ===================================================================== *)

(** The three shapes of the state after [shorten]. *)
Lemma shorten_world (rt : Runtime) (u : Str.t) (w : World) :
  snd (URLService.create_short_url rt u w) = w
  \/ (exists p, snd (URLService.create_short_url rt u w) = set_random_pos p w)
  \/ (exists n k, has_scheme n = true /\ taken rt k w = false
                  /\ snd (URLService.create_short_url rt u w) = allocated_world rt n k w).
Proof.
  unfold URLService.create_short_url, bind, lift.
  destruct (UrlValidator.validate_url rt u) as [n|e] eqn:V; [|now left].
  right. destruct (allocate_outcome rt n w) as [(k & _ & Hf & _ & ->)|[_ ->]].
  - right. exists n, k. repeat split; [exact (@validate_url_scheme _ _ _ V) | exact Hf].
  - left. now exists (30 + random_pos w).
Qed.

Lemma post_shorten_world (rt : Runtime) (body : Schemas.ShortenRequest) (w : World) :
  snd (Endpoints.create_short_url rt body w)
  = snd (URLService.create_short_url rt (Schemas.req_original_url body) w).
Proof.
  unfold Endpoints.create_short_url, bind at 1.
  now destruct (URLService.create_short_url rt _ w) as [[r|e] w'].
Qed.

(** The shapes of the state after [GET /{code}]. *)
Lemma redirect_world (rt : Runtime) (code : Str.t) (w : World) :
  snd (Endpoints.redirect_to_url rt code w) = w
  \/ ((exists r, In r (urls w) /\ ShortURL.short_code r = code)
      /\ snd (Endpoints.redirect_to_url rt code w)
         = snd (URLStatsRepository.increment_visit_count rt code w)).
Proof.
  rewrite redirect_run.
  destruct (find _ (urls w)) as [r|] eqn:F; [|now left].
  destruct (ShortURL.is_active r && truthy (PyStr (ShortURL.original_url r))); [|now left].
  right. split; [|reflexivity]. apply find_some in F as [Hin Hr].
  apply Str_eqb_eq in Hr. eauto.
Qed.

Lemma url_row_ok_later (seq : Z) (r : ShortURL.t) :
  url_row_ok seq r -> url_row_ok (seq + 1) r.
Proof.
  intros (A & S & W & i & Hi & Hb). repeat split; try assumption; try apply W.
  exists i. split; [exact Hi | lia].
Qed.

Lemma allocated_urls_ok (rt : Runtime) (n : Str.t) (k : nat) (w : World) :
  has_scheme n = true -> taken rt k w = false ->
  urls_ok w -> urls_ok (allocated_world rt n k w).
Proof.
  intros Hs Hf (Hseq & Hcodes & Hids & Hrows).
  unfold urls_ok, allocated_world. cbn [urls urls_id_seq].
  split; [lia|]. split; [|split].
  - rewrite map_app. cbn [map allocated_row ShortURL.short_code].
    apply NoDup_snoc; [exact Hcodes|]. intro Hin.
    apply in_map_iff in Hin as (r & Hr & Hin).
    exact (@not_taken_fresh _ _ _ Hf r Hin Hr).
  - rewrite map_app. cbn [map allocated_row ShortURL.id].
    apply NoDup_snoc; [exact Hids|]. intro Hin.
    apply in_map_iff in Hin as (r & Hr & Hin).
    destruct (Hrows r Hin) as (_ & _ & _ & i & Hi & Hb).
    rewrite Hi in Hr. injection Hr as ->. lia.
  - intros r Hin. apply in_app_or in Hin as [Hin|[<-|[]]].
    + apply url_row_ok_later. now apply Hrows.
    + unfold url_row_ok, allocated_row.
      cbn [ShortURL.is_active ShortURL.original_url ShortURL.short_code ShortURL.id].
      split; [reflexivity|]. split; [exact Hs|].
      split; [apply drawn_code_well_formed|].
      exists (urls_id_seq w). split; [reflexivity | lia].
Qed.

Lemma increment_stats_rows_ok (rt : Runtime) (code : Str.t) (w : World) :
  stats_rows_ok w ->
  stats_rows_ok (snd (URLStatsRepository.increment_visit_count rt code w)).
Proof.
  intros (Hseq & Hids & Hrows). unfold stats_rows_ok. rewrite increment_run.
  destruct (existsb _ (url_stats w)); cbn [snd url_stats url_stats_id_seq].
  - split; [exact Hseq|]. split.
    + rewrite map_map.
      replace (map _ (url_stats w)) with (map URLStats.id (url_stats w)); [exact Hids|].
      apply map_ext. intro r. now destruct (Str.eqb (URLStats.short_code r) code).
    + intros r Hin. apply in_map_iff in Hin as (r0 & <- & Hin).
      destruct (Hrows r0 Hin) as (Hc & Hl & Hi).
      destruct (Str.eqb (URLStats.short_code r0) code); [|now repeat split].
      unfold stats_row_ok, URLStatsRepository.bump.
      cbn [URLStats.visit_count URLStats.last_visited_at URLStats.id].
      repeat split; [lia | discriminate | exact Hi].
  - split; [lia|]. split.
    + rewrite map_app. cbn [map first_visit_row URLStats.id].
      apply NoDup_snoc; [exact Hids|]. intro Hin.
      apply in_map_iff in Hin as (r & Hr & Hin).
      destruct (Hrows r Hin) as (_ & _ & i & Hi & Hb).
      rewrite Hi in Hr. injection Hr as ->. lia.
    + intros r Hin. apply in_app_or in Hin as [Hin|[<-|[]]].
      * destruct (Hrows r Hin) as (Hc & Hl & i & Hi & Hb).
        repeat split; try assumption. exists i. split; [exact Hi | lia].
      * unfold stats_row_ok, first_visit_row.
        cbn [URLStats.visit_count URLStats.last_visited_at URLStats.id].
        repeat split; [lia | discriminate |].
        exists (url_stats_id_seq w). split; [reflexivity | lia].
Qed.

Lemma increment_refers (rt : Runtime) (code : Str.t) (w : World) :
  (exists r, In r (urls w) /\ ShortURL.short_code r = code) ->
  stats_refer_to_urls w ->
  stats_refer_to_urls (snd (URLStatsRepository.increment_visit_count rt code w)).
Proof.
  intros Hcode Href. unfold stats_refer_to_urls.
  rewrite (proj1 (increment_urls rt code w)). rewrite increment_run.
  destruct (existsb _ (url_stats w)); cbn [snd url_stats]; intros s Hin.
  - apply in_map_iff in Hin as (s0 & <- & Hin).
    destruct (Href s0 Hin) as (r & Hr & Hc). exists r. split; [exact Hr|].
    now destruct (Str.eqb (URLStats.short_code s0) code).
  - apply in_app_or in Hin as [Hin|[<-|[]]]; [now apply Href | exact Hcode].
Qed.

(** All of it at once, by induction on the requests served. *)
Lemma served_invariant (rt : Runtime) (w : World) :
  served rt w ->
  urls_ok w /\ stats_rows_ok w /\ stats_refer_to_urls w /\ stats_ok (url_stats w).
Proof.
  induction 1 as [|w q _ (Hu & Hs & Hr & Ho)].
  - split; [|split; [|split]].
    + split; [cbn; lia|]. split; [apply NoDup_nil|].
      split; [apply NoDup_nil | intros r []].
    + split; [cbn; lia|]. split; [apply NoDup_nil | intros r []].
    + intros s [].
    + split; [apply NoDup_nil | intros r []].
  - destruct q as [body|code|code]; cbn [serve].
    + rewrite post_shorten_world.
      destruct (shorten_world rt (Schemas.req_original_url body) w)
        as [->|[[p ->]|(n & k & Hn & Hk & ->)]];
        try (split; [exact Hu|]; split; [exact Hs|]; split; [exact Hr | exact Ho]).
      split; [now apply allocated_urls_ok|].
      split; [exact Hs|]. split; [|exact Ho].
      intros s Hin. destruct (Hr s Hin) as (r & Hin' & Hc).
      exists r. split; [|exact Hc]. cbn [allocated_world urls].
      apply in_or_app. now left.
    + destruct (redirect_world rt code w) as [->|[Hcode ->]];
        [split; [exact Hu|]; split; [exact Hs|]; split; [exact Hr | exact Ho]|].
      split.
      { destruct (increment_urls rt code w) as [E1 E2].
        unfold urls_ok. now rewrite E1, E2. }
      split; [now apply increment_stats_rows_ok|].
      split; [now apply increment_refers | now apply increment_keeps_stats_ok].
    + rewrite get_url_stats_run.
      split; [exact Hu|]; split; [exact Hs|]; split; [exact Hr | exact Ho].
Qed.

(** X15.  In every state that the three endpoints can produce from the
    empty database, the stored mappings are all active, carry a URL that
    starts with [http://] or [https://], a six-character alphanumeric
    short code and a positive primary key below the sequence, and no two
    of them share a short code or a primary key. *)
Theorem served_mappings_well_formed (rt : Runtime) (w : World) :
  served rt w -> urls_ok w.
Proof. intro H. now apply served_invariant in H. Qed.

(** X16.  In every such state each stats row has a counter of at least
    one, a last visit that is set, a primary key of its own, a short code
    of its own, and belongs to a stored mapping. *)
Theorem served_stats_well_formed (rt : Runtime) (w : World) :
  served rt w ->
  stats_rows_ok w /\ stats_refer_to_urls w
  /\ NoDup (map URLStats.short_code (url_stats w)).
Proof.
  intro H. apply served_invariant in H as (_ & Hs & Hr & Ho & _). auto.
Qed.

Lemma served_mappings_well_formed_witness : urls_ok served_sample.
Proof.
  apply (@served_mappings_well_formed sample_runtime). unfold served_sample.
  repeat constructor.
Defined.

Lemma served_stats_well_formed_witness :
  stats_rows_ok served_sample /\ stats_refer_to_urls served_sample
  /\ NoDup (map URLStats.short_code (url_stats served_sample)).
Proof.
  apply (@served_stats_well_formed sample_runtime). unfold served_sample.
  repeat constructor.
Defined.

(* ===================================================================== *)
(** * The repositories and the endpoints end to end *)
(* ===================================================================== *)

(** X17.  [URLRepository.create] of a new mapping (one without a
    primary key yet) followed by [get_by_short_code]: when its short code
    is not stored, the mapping is inserted under the next primary key, is
    what a lookup of its code returns afterwards, and changes the lookup
    of no other code; when its short code is stored, the unique index
    rejects it and the rows stay as they were. *)
Theorem url_repository_create_lookup (su : ShortURL.t) (w : World) :
  ShortURL.id su = None ->
  ((forall r, In r (urls w) -> ShortURL.short_code r <> ShortURL.short_code su) ->
   exists w',
     URLRepository.create su w = (Ok (ShortURL.with_id (urls_id_seq w) su), w')
     /\ URLRepository.get_by_short_code (ShortURL.short_code su) w'
        = (Ok (Some (ShortURL.with_id (urls_id_seq w) su)), w')
     /\ forall c, c <> ShortURL.short_code su ->
          fst (URLRepository.get_by_short_code c w')
          = fst (URLRepository.get_by_short_code c w))
  /\ ((exists r, In r (urls w) /\ ShortURL.short_code r = ShortURL.short_code su) ->
      exists w' c,
        URLRepository.create su w = (Raise (IntegrityError c), w')
        /\ urls w' = urls w /\ url_stats w' = url_stats w).
Proof.
  intros _. unfold URLRepository.create, URLRepository.get_by_short_code. split.
  - intro Hfresh.
    assert (E : existsb (fun r => Str.eqb (ShortURL.short_code r) (ShortURL.short_code su))
                        (urls w) = false).
    { apply not_true_is_false. intro T. apply existsb_exists in T as (r & Hin & Hr).
      apply Str_eqb_eq in Hr. exact (Hfresh r Hin Hr). }
    rewrite E. eexists. split; [reflexivity|]. cbn [urls set_urls fst].
    split.
    + rewrite find_snoc. apply find_none_existsb in E. rewrite E.
      cbn [ShortURL.with_id ShortURL.short_code]. now rewrite Str_eqb_refl.
    + intros c Hc. rewrite find_snoc.
      cbn [ShortURL.with_id ShortURL.short_code].
      apply not_eq_sym, Str_eqb_neq in Hc. rewrite Hc.
      now destruct (find _ (urls w)).
  - intros (r & Hin & Hr).
    assert (E : existsb (fun r => Str.eqb (ShortURL.short_code r) (ShortURL.short_code su))
                        (urls w) = true).
    { apply existsb_exists. exists r. split; [exact Hin | now apply Str_eqb_eq]. }
    rewrite E. eexists _, _. repeat split.
Qed.

Lemma url_repository_create_lookup_witness :
  (exists w',
     URLRepository.create fresh_mapping shortened_world
     = (Ok (ShortURL.with_id (urls_id_seq shortened_world) fresh_mapping), w')
     /\ URLRepository.get_by_short_code (ShortURL.short_code fresh_mapping) w'
        = (Ok (Some (ShortURL.with_id (urls_id_seq shortened_world) fresh_mapping)), w')
     /\ forall c, c <> ShortURL.short_code fresh_mapping ->
          fst (URLRepository.get_by_short_code c w')
          = fst (URLRepository.get_by_short_code c shortened_world))
  /\ (exists w' c,
        URLRepository.create duplicate_mapping shortened_world
        = (Raise (IntegrityError c), w')
        /\ urls w' = urls shortened_world /\ url_stats w' = url_stats shortened_world).
Proof.
  split.
  - apply (proj1 (@url_repository_create_lookup fresh_mapping shortened_world eq_refl)).
    intros r [<-|[]]. discriminate.
  - apply (proj2 (@url_repository_create_lookup duplicate_mapping shortened_world eq_refl)).
    eexists. split; [now left | reflexivity].
Defined.

(** X18.  [URLStatsRepository.create] of a new row (one without a
    primary key yet) followed by the stats service: when its short code
    is not stored, the row is inserted, [get_stats] of its code then
    reports its counter and the rendering of its last visit, and a
    following [increment] raises that counter by one; when its short code
    is stored, the unique index rejects it and the rows stay as they
    were. *)
Theorem stats_repository_create_lookup (rt : Runtime) (row : URLStats.t) (w : World) :
  URLStats.id row = None ->
  ((forall r, In r (url_stats w) -> URLStats.short_code r <> URLStats.short_code row) ->
   exists w',
     URLStatsRepository.create row w = (Ok (URLStats.with_id (url_stats_id_seq w) row), w')
     /\ url_stats w' = url_stats w ++ [URLStats.with_id (url_stats_id_seq w) row]
     /\ fst (URLStatsService.get_stats (URLStats.short_code row) w')
        = Ok [("short_code", PyStr (URLStats.short_code row));
              ("visit_count", PyInt (URLStats.visit_count row));
              ("last_visited_at",
               PyStr (str_opt_datetime (URLStats.last_visited_at row)))]%string
     /\ visit_count_of (URLStats.short_code row)
          (snd (URLStatsRepository.increment_visit_count rt (URLStats.short_code row) w'))
        = (URLStats.visit_count row + 1)%Z)
  /\ ((exists r, In r (url_stats w) /\ URLStats.short_code r = URLStats.short_code row) ->
      exists w' c,
        URLStatsRepository.create row w = (Raise (IntegrityError c), w')
        /\ url_stats w' = url_stats w /\ urls w' = urls w).
Proof.
  intros _. unfold URLStatsRepository.create, URLStatsRepository.insert. split.
  - intro Hfresh. apply no_hit_iff in Hfresh. rewrite Hfresh.
    eexists. split; [reflexivity|]. split; [reflexivity|].
    assert (F : find (fun r => Str.eqb (URLStats.short_code r) (URLStats.short_code row))
                     (url_stats w ++ [URLStats.with_id (url_stats_id_seq w) row])
                = Some (URLStats.with_id (url_stats_id_seq w) row)).
    { rewrite find_snoc. apply find_none_existsb in Hfresh. rewrite Hfresh.
      cbn [URLStats.with_id URLStats.short_code]. now rewrite Str_eqb_refl. }
    split.
    + unfold URLStatsService.get_stats, bind, URLStatsRepository.get_by_short_code.
      cbn [url_stats set_url_stats]. rewrite F. reflexivity.
    + rewrite increment_count. unfold visit_count_of. cbn [url_stats set_url_stats].
      rewrite F. reflexivity.
  - intros (r & Hin & Hr).
    assert (E : existsb (fun r => Str.eqb (URLStats.short_code r) (URLStats.short_code row))
                        (url_stats w) = true).
    { apply existsb_exists. exists r. split; [exact Hin | now apply Str_eqb_eq]. }
    rewrite E. eexists _, _. repeat split.
Qed.

Lemma stats_repository_create_lookup_witness :
  (exists w',
     URLStatsRepository.create fresh_stats visited_world
     = (Ok (URLStats.with_id (url_stats_id_seq visited_world) fresh_stats), w')
     /\ url_stats w'
        = url_stats visited_world
          ++ [URLStats.with_id (url_stats_id_seq visited_world) fresh_stats]
     /\ fst (URLStatsService.get_stats (URLStats.short_code fresh_stats) w')
        = Ok [("short_code", PyStr (URLStats.short_code fresh_stats));
              ("visit_count", PyInt (URLStats.visit_count fresh_stats));
              ("last_visited_at",
               PyStr (str_opt_datetime (URLStats.last_visited_at fresh_stats)))]%string
     /\ visit_count_of (URLStats.short_code fresh_stats)
          (snd (URLStatsRepository.increment_visit_count
                  sample_runtime (URLStats.short_code fresh_stats) w'))
        = (URLStats.visit_count fresh_stats + 1)%Z)
  /\ (exists w' c,
        URLStatsRepository.create duplicate_stats visited_world
        = (Raise (IntegrityError c), w')
        /\ url_stats w' = url_stats visited_world /\ urls w' = urls visited_world).
Proof.
  split.
  - apply (proj1 (@stats_repository_create_lookup sample_runtime fresh_stats visited_world
                    eq_refl)).
    intros r [<-|[]]. discriminate.
  - apply (proj2 (@stats_repository_create_lookup sample_runtime duplicate_stats
                    visited_world eq_refl)).
    eexists. split; [now left | reflexivity].
Defined.

(** X19.  [POST /shorten] then [GET /{code}], at the HTTP layer: the
    response of a successful [POST /shorten] carries the normalized form
    of the submitted URL and a six-character alphanumeric code, and a
    following [GET] of that code returns a redirect with status 307 whose
    [Location] header is the percent-quoted form of the URL of the
    response: that URL itself when all its characters are ones that
    quoting keeps. *)
Theorem post_then_get (rt : Runtime) (body : Schemas.ShortenRequest) (w w' : World)
        (resp : Schemas.ShortenRequestResponse) :
  Endpoints.create_short_url rt body w = (Ok resp, w') ->
  UrlValidator.validate_url rt (Schemas.req_original_url body)
  = Ok (Schemas.resp_original_url resp)
  /\ well_formed_code (Schemas.resp_short_code resp)
  /\ exists redirect,
       fst (Endpoints.redirect_to_url rt (Schemas.resp_short_code resp) w') = Ok redirect
       /\ Endpoints.status_code redirect = 307%Z
       /\ Endpoints.location redirect
          = Urllib.quote Endpoints.location_safe (Schemas.resp_original_url resp)
       /\ (location_plain (Schemas.resp_original_url resp) = true ->
           Endpoints.location redirect = Ok (Schemas.resp_original_url resp)).
Proof.
  unfold Endpoints.create_short_url, URLService.create_short_url, bind, lift, ret.
  destruct (UrlValidator.validate_url rt (Schemas.req_original_url body)) as [n|e] eqn:V;
    [|discriminate].
  destruct (allocate_outcome rt n w) as [(k & _ & Hf & _ & ->)|[_ ->]]; [|discriminate].
  unfold taken in Hf. apply find_none_existsb in Hf.
  unfold allocated_world, allocated_row.
  remember (6 * k + random_pos w) as pos eqn:Hpos. clear Hpos.
  intro E. injection E as <- <-.
  cbn [Schemas.resp_original_url Schemas.resp_short_code
       ShortURL.short_code ShortURL.original_url].
  split; [reflexivity|]. split; [apply drawn_code_well_formed|].
  exists (Endpoints.mkRedirectResponse n 307). split.
  - rewrite redirect_run. cbn [urls].
    rewrite find_snoc, Hf.
    cbn [ShortURL.short_code ShortURL.is_active ShortURL.original_url].
    rewrite Str_eqb_refl.
    cbn [ShortURL.short_code ShortURL.is_active ShortURL.original_url].
    rewrite (@validated_truthy _ _ _ V). cbn [andb fst].
    unfold has_scheme. now rewrite (@validate_url_scheme _ _ _ V).
  - split; [reflexivity|]. split; [reflexivity | apply location_of_plain].
Qed.

Lemma post_then_get_witness :
  UrlValidator.validate_url sample_runtime
    (Schemas.req_original_url (Schemas.mkShortenRequest (py "example.com")))
  = Ok (Schemas.resp_original_url
          (Schemas.mkShortenRequestResponse (py "abcdef") (py "https://example.com")))
  /\ well_formed_code
       (Schemas.resp_short_code
          (Schemas.mkShortenRequestResponse (py "abcdef") (py "https://example.com")))
  /\ exists redirect,
       fst (Endpoints.redirect_to_url
              sample_runtime
              (Schemas.resp_short_code
                 (Schemas.mkShortenRequestResponse (py "abcdef") (py "https://example.com")))
              shortened_world)
       = Ok redirect
       /\ Endpoints.status_code redirect = 307%Z
       /\ Endpoints.location redirect
          = Urllib.quote Endpoints.location_safe
              (Schemas.resp_original_url
                 (Schemas.mkShortenRequestResponse (py "abcdef") (py "https://example.com")))
       /\ (location_plain
             (Schemas.resp_original_url
                (Schemas.mkShortenRequestResponse (py "abcdef") (py "https://example.com")))
           = true ->
           Endpoints.location redirect
           = Ok (Schemas.resp_original_url
                   (Schemas.mkShortenRequestResponse (py "abcdef")
                                                     (py "https://example.com")))).
Proof.
  apply (@post_then_get sample_runtime (Schemas.mkShortenRequest (py "example.com"))
           empty_world shortened_world).
  vm_compute. reflexivity.
Defined.
